(** * fastkml.styles: the KML style elements and their element-tree codec

    A shallow embedding of [fastkml/styles.py].  Every class of the module
    becomes a record, every method a function of the same name; [from_element]
    mutates [self] and may raise, so it lives in a small state-and-exception
    monad whose state is the object; [etree_element] only reads [self] and
    returns an element or an exception.

    Three layers sit under the module and are modelled first:
    - [Py]: the host language's numbers and the builtins [float], [int],
      [str] that the codec calls on element text;
    - [etree]: the in-memory element tree (tag, attributes, text, children);
    - [_BaseObject]: the base class of [fastkml/base.py]. *)

From Stdlib Require Import ZArith List String Ascii Bool Lia.
From Stdlib Require Import Floats.SpecFloat DecimalString.
Import ListNotations.
Local Open Scope string_scope.
Local Open Scope Z_scope.

(* ================================================================== *)
(** * Python values and builtins *)
(* ================================================================== *)

Module Py.

(** A Python [float] is an IEEE 754 binary64 value. *)
Definition float := spec_float.
Definition prec : Z := 53.
Definition emax : Z := 1024.

(** The numeric fields of the styles hold an [int] or a [float]. *)
Inductive number := Int (n : Z) | Float (x : float).

(** Exceptions.  Python raises [ValueError] both from the [raise] statements of
    [styles.py] and from [float()] on malformed text; the model keeps the two
    origins apart: an exception that leaves a builtin conversion is wrapped in
    [ConversionError]. *)
Inductive conversion_exception := float_ValueError | float_TypeError
                                | int_ValueError | int_OverflowError.

Inductive exception :=
| ValueError
| TypeError
| AttributeError
| ConversionError (c : conversion_exception).

Inductive result (A : Type) := Ok (a : A) | Raise (e : exception).
Arguments Ok {A} a.
Arguments Raise {A} e.

(** ** Reading a float: [float(text)]

    Text is a string of ASCII characters.  [float] strips the whitespace
    around the literal (tab, line feed, vertical tab, form feed, carriage
    return, space), reads an optional sign, then either one of the words
    [inf], [infinity], [nan] in any case or a decimal number with optional
    fraction and exponent, whose digits may be grouped with single
    underscores; the value is the binary64 nearest to the decimal. *)

Definition is_space (c : ascii) : bool :=
  let n := N_of_ascii c in
  (((9 <=? n) && (n <=? 13)) || (n =? 32))%N.

Definition is_digit (c : ascii) : bool :=
  let n := N_of_ascii c in ((48 <=? n) && (n <=? 57))%N.

Definition digit_value (c : ascii) : Z := Z.of_N (N_of_ascii c) - 48.

Definition lower (c : ascii) : ascii :=
  let n := N_of_ascii c in
  if ((65 <=? n) && (n <=? 90))%N then ascii_of_N (n + 32) else c.

Fixpoint lstrip (s : list ascii) : list ascii :=
  match s with
  | c :: s' => if is_space c then lstrip s' else s
  | [] => []
  end.

Definition strip (s : list ascii) : list ascii := rev (lstrip (rev (lstrip s))).

(** [digit (["_"] digit)*], after its first digit: the digits accumulate in
    [acc], [cnt] counts them. *)
Fixpoint digitpart_tail (acc cnt : Z) (s : list ascii) : Z * Z * list ascii :=
  match s with
  | c :: s' =>
      if is_digit c then digitpart_tail (10 * acc + digit_value c) (cnt + 1) s'
      else if Ascii.eqb c "_" then
        match s' with
        | d :: s'' =>
            if is_digit d
            then digitpart_tail (10 * acc + digit_value d) (cnt + 1) s''
            else (acc, cnt, s)
        | [] => (acc, cnt, s)
        end
      else (acc, cnt, s)
  | [] => (acc, cnt, [])
  end.

Definition digitpart (acc cnt : Z) (s : list ascii) : option (Z * Z * list ascii) :=
  match s with
  | c :: s' =>
      if is_digit c
      then Some (digitpart_tail (10 * acc + digit_value c) (cnt + 1) s')
      else None
  | [] => None
  end.

Definition read_sign (s : list ascii) : bool * list ascii :=
  match s with
  | c :: s' =>
      if Ascii.eqb c "-" then (true, s')
      else if Ascii.eqb c "+" then (false, s')
      else (false, s)
  | [] => (false, [])
  end.

(** [number ::= [digitpart] "." digitpart | digitpart ["."]]: all the digits
    read as one integer, how many of them follow the point, the rest. *)
Definition read_number (s : list ascii) : option (Z * Z * list ascii) :=
  match digitpart 0 0 s with
  | Some (m, _, r) =>
      match r with
      | c :: r' =>
          if Ascii.eqb c "." then
            match digitpart m 0 r' with
            | Some res => Some res
            | None => Some (m, 0, r')
            end
          else Some (m, 0, r)
      | [] => Some (m, 0, [])
      end
  | None =>
      match s with
      | c :: r' => if Ascii.eqb c "." then digitpart 0 0 r' else None
      | [] => None
      end
  end.

(** [exponent ::= ("e" | "E") [sign] digitpart], optional. *)
Definition read_exponent (s : list ascii) : option (Z * list ascii) :=
  match s with
  | c :: r =>
      if Ascii.eqb (lower c) "e" then
        let '(neg, r1) := read_sign r in
        match digitpart 0 0 r1 with
        | Some (e, _, r2) => Some (if neg then - e else e, r2)
        | None => None
        end
      else Some (0, s)
  | [] => Some (0, [])
  end.

(** The binary64 value nearest to [n/d], ties to even. *)
Definition round_ratio (sgn : bool) (n d : positive) : float :=
  let '(mz, ez, lz) := SFdiv_core_binary prec emax (Zpos n) 0 (Zpos d) 0 in
  binary_round_aux prec emax sgn mz ez lz.

(** The binary64 value nearest to [m * 10^k]. *)
Definition float_of_decimal (sgn : bool) (m k : Z) : float :=
  match m * 10 ^ Z.max k 0, 10 ^ Z.max (- k) 0 with
  | Zpos n, Zpos d => round_ratio sgn n d
  | _, _ => S754_zero sgn
  end.

Definition float_of_chars (s : list ascii) : option float :=
  let '(sgn, r) := read_sign (strip s) in
  let word := string_of_list_ascii (map lower r) in
  if String.eqb word "inf" || String.eqb word "infinity" then Some (S754_infinity sgn)
  else if String.eqb word "nan" then Some S754_nan
  else
    match read_number r with
    | Some (m, f, r1) =>
        match read_exponent r1 with
        | Some (e, []) => Some (float_of_decimal sgn m (e - f))
        | _ => None
        end
    | None => None
    end.

(** [float(x)] for [x] the text of an element: [None] is not a number
    ([TypeError]), a string that is no float literal is a [ValueError]. *)
Definition float_ (text : option string) : result float :=
  match text with
  | None => Raise (ConversionError float_TypeError)
  | Some s =>
      match float_of_chars (list_ascii_of_string s) with
      | Some x => Ok x
      | None => Raise (ConversionError float_ValueError)
      end
  end.

(** ** [int(x)] of a float: truncation towards zero *)

Definition int_ (x : float) : result Z :=
  match x with
  | S754_nan => Raise (ConversionError int_ValueError)
  | S754_infinity _ => Raise (ConversionError int_OverflowError)
  | S754_zero _ => Ok 0
  | S754_finite sgn m e =>
      let a := if 0 <=? e then Z.shiftl (Zpos m) e else Z.shiftr (Zpos m) (- e) in
      Ok (if sgn then - a else a)
  end.

(** ** [str(x)] of a number *)

Definition str_int (n : Z) : string := NilZero.string_of_int (Z.to_int n).

Definition float_beq (x y : float) : bool :=
  match x, y with
  | S754_zero a, S754_zero b => Bool.eqb a b
  | S754_infinity a, S754_infinity b => Bool.eqb a b
  | S754_nan, S754_nan => true
  | S754_finite a m e, S754_finite b m' e' => Bool.eqb a b && Pos.eqb m m' && Z.eqb e e'
  | _, _ => false
  end.

(** [n/d >= 10^k] *)
Definition ge_pow10 (n d k : Z) : bool :=
  d * 10 ^ Z.max k 0 <=? n * 10 ^ Z.max (- k) 0.

Fixpoint first_pow10_above (fuel : nat) (n d k : Z) : Z :=
  match fuel with
  | O => k
  | S fuel' => if ge_pow10 n d k then first_pow10_above fuel' n d (k + 1) else k
  end.

(** The [k] with [10^(k-1) <= n/d < 10^k]. *)
Definition decimal_point (n d : Z) : Z :=
  let k0 := ((Z.log2 n - Z.log2 d) * 30103) / 100000 in
  first_pow10_above 8 n d (k0 - 1).

(** The shortest decimal [c * 10^q] that reads back as the float [m * 2^e]
    (which is [n/d]), and the nearest to it among the shortest: [repr] tries
    1, 2, ... up to 17 significant digits. *)
Fixpoint shortest (fuel : nat) (ndig : Z) (m : positive) (e : Z) (n d k : Z) : Z * Z :=
  let q := k - ndig in
  let sn := n * 10 ^ Z.max (- q) 0 in
  let sd := d * 10 ^ Z.max q 0 in
  let lo := sn / sd in
  let r := sn mod sd in
  let ok c := float_beq (float_of_decimal false c q) (S754_finite false m e) in
  let nearest :=
    match 2 * r ?= sd with
    | Lt => lo
    | Gt => lo + 1
    | Eq => if Z.even lo then lo else lo + 1
    end in
  match fuel with
  | O => (nearest, q)
  | S fuel' =>
      if r =? 0 then (lo, q)
      else if ok lo && ok (lo + 1) then (nearest, q)
      else if ok lo then (lo, q)
      else if ok (lo + 1) then (lo + 1, q)
      else shortest fuel' (ndig + 1) m e n d k
  end.

Fixpoint rstrip0 (s : list ascii) : list ascii :=
  match s with
  | c :: s' =>
      match rstrip0 s' with
      | [] => if Ascii.eqb c "0" then [] else [c]
      | t => c :: t
      end
  | [] => []
  end.

Definition zeros (n : Z) : list ascii := repeat "0"%char (Z.to_nat n).

Definition chars := list_ascii_of_string.

Definition format_exponent (x : Z) : list ascii :=
  let a := chars (str_int (Z.abs x)) in
  (if x <? 0 then "-"%char else "+"%char)
    :: (if Z.abs x <? 10 then "0"%char :: a else a).

(** The layout of [repr]: exponent notation when the decimal point would fall
    more than 16 digits to the right or 4 or more zeros to the left. *)
Definition format_repr (digits : list ascii) (decpt : Z) : list ascii :=
  if (decpt <=? -4) || (16 <? decpt) then
    match digits with
    | [d0] => d0 :: "e"%char :: format_exponent (decpt - 1)
    | d0 :: rest =>
        (d0 :: "."%char :: rest ++ "e"%char :: format_exponent (decpt - 1))%list
    | [] => []
    end
  else if decpt <=? 0 then
    (chars "0." ++ zeros (- decpt) ++ digits)%list
  else if Z.of_nat (List.length digits) <=? decpt then
    (digits ++ zeros (decpt - Z.of_nat (List.length digits)) ++ chars ".0")%list
  else
    (firstn (Z.to_nat decpt) digits ++ "."%char :: skipn (Z.to_nat decpt) digits)%list.

Definition str_float (x : float) : string :=
  match x with
  | S754_nan => "nan"
  | S754_infinity false => "inf"
  | S754_infinity true => "-inf"
  | S754_zero false => "0.0"
  | S754_zero true => "-0.0"
  | S754_finite sgn m e =>
      let n := Zpos m * 2 ^ Z.max e 0 in
      let d := 2 ^ Z.max (- e) 0 in
      let '(c, q) := shortest 17 1 m e n d (decimal_point n d) in
      let all := chars (str_int c) in
      string_of_list_ascii
        ((if sgn then ["-"%char] else []) ++
         format_repr (rstrip0 all) (Z.of_nat (List.length all) + q))%list
  end.

Definition str (x : number) : string :=
  match x with
  | Int n => str_int n
  | Float f => str_float f
  end.

(** ** Truth values: [if x:] *)

Definition bool_number (x : number) : bool :=
  match x with
  | Int n => negb (n =? 0)
  | Float (S754_zero _) => false
  | Float _ => true
  end.

Definition bool_str (s : string) : bool := negb (String.eqb s "").

End Py.

Import Py.

(* ================================================================== *)
(** * Methods that mutate [self] and may raise *)
(* ================================================================== *)

(** A method body runs on the object it mutates and either returns or raises;
    what it had assigned before raising stays assigned. *)
Definition M (S A : Type) : Type := S -> result A * S.

Definition ret {S A} (a : A) : M S A := fun self => (Ok a, self).

Definition bind {S A B} (c : M S A) (k : A -> M S B) : M S B :=
  fun self =>
    match c self with
    | (Ok a, self') => k a self'
    | (Raise e, self') => (Raise e, self')
    end.

Definition raise {S A} (e : exception) : M S A := fun self => (Raise e, self).

Definition pass {S} : M S unit := ret tt.

(** Reading an attribute of [self]; assigning one. *)
Definition gets {S A} (f : S -> A) : M S A := fun self => (Ok (f self), self).
Definition modify {S} (f : S -> S) : M S unit := fun self => (Ok tt, f self).

(** The value of a builtin call, or its exception. *)
Definition call {S A} (r : result A) : M S A := fun self => (r, self).

(** A method of the superclass, run on the inherited part of [self]. *)
Definition super {S T A} (proj : S -> T) (inj : T -> S -> S) (c : M T A) : M S A :=
  fun self => let (r, t) := c (proj self) in (r, inj t self).

(** [obj = C(...); obj.method(...)]: a method run on a fresh local object,
    which is the value of the whole when the method returns. *)
Definition on_new {S T} (obj : T) (c : M T unit) : M S T :=
  fun self =>
    match c obj with
    | (Ok _, obj') => (Ok obj', self)
    | (Raise e, _) => (Raise e, self)
    end.

Declare Scope method_scope.
Delimit Scope method_scope with method.
Notation "x <- c ;; k" := (bind c (fun x => k))
  (at level 61, c at next level, right associativity) : method_scope.
Notation "c ;; k" := (bind c (fun _ => k))
  (at level 61, right associativity) : method_scope.

(** The same sequencing for code that only returns or raises. *)
Definition and_then {A B} (r : result A) (k : A -> result B) : result B :=
  match r with
  | Ok a => k a
  | Raise e => Raise e
  end.

(* ================================================================== *)
(** * The element tree *)
(* ================================================================== *)

Module etree.

#[warnings="-register-all"]
Inductive Element := Build_Element {
  tag : string;
  attrib : list (string * string);
  text : option string;
  children : list Element
}.

(** [etree.Element(tag)] *)
Definition Element_ (tag : string) : Element :=
  {| tag := tag; attrib := []; text := None; children := [] |}.

(** [element.text = s] *)
Definition set_text (s : option string) (element : Element) : Element :=
  {| tag := tag element; attrib := attrib element; text := s;
     children := children element |}.

Fixpoint assoc_set (k v : string) (l : list (string * string)) : list (string * string) :=
  match l with
  | [] => [(k, v)]
  | (k', v') :: l' => if String.eqb k k' then (k, v) :: l' else (k', v') :: assoc_set k v l'
  end.

Fixpoint assoc_get (k : string) (l : list (string * string)) : option string :=
  match l with
  | [] => None
  | (k', v') :: l' => if String.eqb k k' then Some v' else assoc_get k l'
  end.

(** [element.set(key, value)], [element.get(key)] *)
Definition set (element : Element) (key value : string) : Element :=
  {| tag := tag element; attrib := assoc_set key value (attrib element);
     text := text element; children := children element |}.

Definition get (element : Element) (key : string) : option string :=
  assoc_get key (attrib element).

(** [element.append(child)] *)
Definition append (element child : Element) : Element :=
  {| tag := tag element; attrib := attrib element; text := text element;
     children := children element ++ [child] |}.

(** [child = etree.SubElement(parent, tag)] followed by what the code then
    does to [child]: the child is made under [parent] and filled in place. *)
Definition SubElement (parent : Element) (tag : string) (fill : Element -> Element) : Element :=
  append parent (fill (Element_ tag)).

(** [element.find(tag)]: the first child with that tag, [None] without one. *)
Definition find (element : Element) (tag_ : string) : option Element :=
  List.find (fun child => String.eqb (tag child) tag_) (children element).

(** [element.findall(tag)]: the children with that tag, in document order. *)
Definition findall (element : Element) (tag_ : string) : list Element :=
  List.filter (fun child => String.eqb (tag child) tag_) (children element).

End etree.

Import etree.

(* ================================================================== *)
(** * The base object *)
(* ================================================================== *)

Module _BaseObject.

(** Modelled from the spec: [fastkml.base._BaseObject], which [styles.py]
    imports and every class extends.  It supplies the namespace and the id of
    an object, builds the root element from the namespace, the tag name of the
    concrete class and the optional id attribute, and reads the id back from
    an element. *)
Record t := { ns : string; id : option string }.

Definition init (ns : string) (id : option string) : t := {| ns := ns; id := id |}.

Definition set_id (v : option string) (self : t) : t := {| ns := ns self; id := v |}.

(** Modelled from the spec: the root element of an object, "tag name +
    optional id attribute" under the namespace; it has no text and no
    children, and building it does not fail. *)
Definition etree_element (__name__ : string) (self : t) : Element :=
  let element := Element_ (ns self ++ __name__) in
  match id self with
  | Some i => set element "id" i
  | None => element
  end.

(** Modelled from the spec: decoding takes the id from the element's id
    attribute when the element has one, and does nothing else. *)
Definition from_element (element : Element) : M t unit :=
  match get element "id" with
  | Some i => modify (set_id (Some i))
  | None => pass
  end.

End _BaseObject.

Local Open Scope method_scope.

(* ================================================================== *)
(** * styles.py *)
(* ================================================================== *)

(** ** class StyleUrl(_BaseObject) *)

Module StyleUrl.

Definition __name__ : string := "styleUrl".

Record t := { base : _BaseObject.t; url : option string }.

Definition ns (self : t) : string := _BaseObject.ns (base self).
Definition set_base (b : _BaseObject.t) (self : t) : t := {| base := b; url := url self |}.
Definition set_url (v : option string) (self : t) : t := {| base := base self; url := v |}.

Definition init (ns : string) (id url : option string) : t :=
  {| base := _BaseObject.init ns id; url := url |}.

(** [StyleUrl(ns)] *)
Definition new (ns : string) : t := init ns None None.

Definition etree_element (self : t) : result Element :=
  match url self with
  | Some u =>
      if bool_str u then
        let element := _BaseObject.etree_element __name__ (base self) in
        let element := set_text (Some u) element in
        Ok element
      else Raise ValueError
  | None => Raise ValueError
  end.

Definition from_element (element : Element) : M t unit :=
  super base set_base (_BaseObject.from_element element) ;;
  modify (set_url (text element)).

End StyleUrl.

(** ** class _ColorStyle(_BaseObject) *)

Module _ColorStyle.

Record t := { base : _BaseObject.t; color : option string; colorMode : option string }.

Definition ns (self : t) : string := _BaseObject.ns (base self).
Definition set_base (b : _BaseObject.t) (self : t) : t :=
  {| base := b; color := color self; colorMode := colorMode self |}.
Definition set_color (v : option string) (self : t) : t :=
  {| base := base self; color := v; colorMode := colorMode self |}.
Definition set_colorMode (v : option string) (self : t) : t :=
  {| base := base self; color := color self; colorMode := v |}.

Definition init (ns : string) (id color colorMode : option string) : t :=
  {| base := _BaseObject.init ns id; color := color; colorMode := colorMode |}.

(** [if self.color:] on a field that holds [None] or a string *)
Definition truthy (v : option string) : option string :=
  match v with
  | Some s => if bool_str s then Some s else None
  | None => None
  end.

(** The tag name [__name__] is that of the concrete subclass. *)
Definition etree_element (__name__ : string) (self : t) : Element :=
  let element := _BaseObject.etree_element __name__ (base self) in
  let element :=
    match truthy (color self) with
    | Some c => SubElement element (ns self ++ "color") (set_text (Some c))
    | None => element
    end in
  let element :=
    match truthy (colorMode self) with
    | Some c => SubElement element (ns self ++ "colorMode") (set_text (Some c))
    | None => element
    end in
  element.

Definition from_element (element : Element) : M t unit :=
  super base set_base (_BaseObject.from_element element) ;;
  ns <- gets ns ;;
  match find element (ns ++ "colorMode") with
  | Some colorMode => modify (set_colorMode (text colorMode))
  | None => pass
  end ;;
  match find element (ns ++ "color") with
  | Some color => modify (set_color (text color))
  | None => pass
  end.

End _ColorStyle.

(** ** class IconStyle(_ColorStyle) *)

Module IconStyle.

Definition __name__ : string := "IconStyle".

Record t := {
  base : _ColorStyle.t;
  scale : option number;
  heading : option number;
  icon_href : option string
}.

Definition ns (self : t) : string := _ColorStyle.ns (base self).
Definition set_base (b : _ColorStyle.t) (self : t) : t :=
  {| base := b; scale := scale self; heading := heading self; icon_href := icon_href self |}.
Definition set_scale (v : option number) (self : t) : t :=
  {| base := base self; scale := v; heading := heading self; icon_href := icon_href self |}.
Definition set_heading (v : option number) (self : t) : t :=
  {| base := base self; scale := scale self; heading := v; icon_href := icon_href self |}.
Definition set_icon_href (v : option string) (self : t) : t :=
  {| base := base self; scale := scale self; heading := heading self; icon_href := v |}.

Definition init (ns : string) (id color colorMode : option string)
    (scale heading : option number) (icon_href : option string) : t :=
  {| base := _ColorStyle.init ns id color colorMode;
     scale := scale; heading := heading; icon_href := icon_href |}.

(** The float [1.0], the default of [scale] and [width]. *)
Definition one : float := S754_finite false 4503599627370496 (-52).

(** [IconStyle(ns)]: [scale=1.0], the other arguments [None] *)
Definition new (ns : string) : t :=
  init ns None None None (Some (Float one)) None None.

Definition etree_element (self : t) : Element :=
  let element := _ColorStyle.etree_element __name__ (base self) in
  let element :=
    match scale self with
    | Some scale => SubElement element (ns self ++ "scale") (set_text (Some (str scale)))
    | None => element
    end in
  let element :=
    match heading self with
    | Some heading =>
        if bool_number heading
        then SubElement element (ns self ++ "heading") (set_text (Some (str heading)))
        else element
    | None => element
    end in
  let element :=
    match _ColorStyle.truthy (icon_href self) with
    | Some icon_href =>
        SubElement element (ns self ++ "Icon") (fun icon =>
          SubElement icon (ns self ++ "href") (set_text (Some icon_href)))
    | None => element
    end in
  element.

Definition from_element (element : Element) : M t unit :=
  super base set_base (_ColorStyle.from_element element) ;;
  ns <- gets ns ;;
  match find element (ns ++ "scale") with
  | Some scale => x <- call (float_ (text scale)) ;; modify (set_scale (Some (Float x)))
  | None => pass
  end ;;
  match find element (ns ++ "heading") with
  | Some heading => x <- call (float_ (text heading)) ;; modify (set_heading (Some (Float x)))
  | None => pass
  end ;;
  match find element (ns ++ "Icon") with
  | Some icon =>
      match find icon (ns ++ "href") with
      | Some href => modify (set_icon_href (text href))
      | None => pass
      end
  | None => pass
  end.

End IconStyle.

(** ** class LineStyle(_ColorStyle) *)

Module LineStyle.

Definition __name__ : string := "LineStyle".

Record t := { base : _ColorStyle.t; width : option number }.

Definition ns (self : t) : string := _ColorStyle.ns (base self).
Definition set_base (b : _ColorStyle.t) (self : t) : t := {| base := b; width := width self |}.
Definition set_width (v : option number) (self : t) : t := {| base := base self; width := v |}.

Definition init (ns : string) (id color colorMode : option string) (width : option number) : t :=
  {| base := _ColorStyle.init ns id color colorMode; width := width |}.

(** [LineStyle(ns)]: the default argument is the int [width=1] *)
Definition new (ns : string) : t := init ns None None None (Some (Int 1)).

Definition etree_element (self : t) : Element :=
  let element := _ColorStyle.etree_element __name__ (base self) in
  let element :=
    match width self with
    | Some width => SubElement element (ns self ++ "width") (set_text (Some (str width)))
    | None => element
    end in
  element.

Definition from_element (element : Element) : M t unit :=
  super base set_base (_ColorStyle.from_element element) ;;
  ns <- gets ns ;;
  match find element (ns ++ "width") with
  | Some width => x <- call (float_ (text width)) ;; modify (set_width (Some (Float x)))
  | None => pass
  end.

End LineStyle.

(** ** class PolyStyle(_ColorStyle) *)

Module PolyStyle.

Definition __name__ : string := "PolyStyle".

Record t := { base : _ColorStyle.t; fill : option number; outline : option number }.

Definition ns (self : t) : string := _ColorStyle.ns (base self).
Definition set_base (b : _ColorStyle.t) (self : t) : t :=
  {| base := b; fill := fill self; outline := outline self |}.
Definition set_fill (v : option number) (self : t) : t :=
  {| base := base self; fill := v; outline := outline self |}.
Definition set_outline (v : option number) (self : t) : t :=
  {| base := base self; fill := fill self; outline := v |}.

Definition init (ns : string) (id color colorMode : option string)
    (fill outline : option number) : t :=
  {| base := _ColorStyle.init ns id color colorMode; fill := fill; outline := outline |}.

(** [PolyStyle(ns)]: [fill=1], [outline=1] *)
Definition new (ns : string) : t := init ns None None None (Some (Int 1)) (Some (Int 1)).

Definition etree_element (self : t) : Element :=
  let element := _ColorStyle.etree_element __name__ (base self) in
  let element :=
    match fill self with
    | Some fill => SubElement element (ns self ++ "fill") (set_text (Some (str fill)))
    | None => element
    end in
  let element :=
    match outline self with
    | Some outline => SubElement element (ns self ++ "outline") (set_text (Some (str outline)))
    | None => element
    end in
  element.

(** [int(float(text))] *)
Definition int_float (text : option string) : result Z :=
  and_then (float_ text) int_.

Definition from_element (element : Element) : M t unit :=
  super base set_base (_ColorStyle.from_element element) ;;
  ns <- gets ns ;;
  match find element (ns ++ "fill") with
  | Some fill => n <- call (int_float (text fill)) ;; modify (set_fill (Some (Int n)))
  | None => pass
  end ;;
  match find element (ns ++ "outline") with
  | Some outline => n <- call (int_float (text outline)) ;; modify (set_outline (Some (Int n)))
  | None => pass
  end.

End PolyStyle.

(** ** class LabelStyle(_ColorStyle) *)

Module LabelStyle.

Definition __name__ : string := "LabelStyle".

Record t := { base : _ColorStyle.t; scale : option number }.

Definition ns (self : t) : string := _ColorStyle.ns (base self).
Definition set_base (b : _ColorStyle.t) (self : t) : t := {| base := b; scale := scale self |}.
Definition set_scale (v : option number) (self : t) : t := {| base := base self; scale := v |}.

Definition init (ns : string) (id color colorMode : option string) (scale : option number) : t :=
  {| base := _ColorStyle.init ns id color colorMode; scale := scale |}.

(** [LabelStyle(ns)]: [scale=1.0] *)
Definition new (ns : string) : t := init ns None None None (Some (Float IconStyle.one)).

Definition etree_element (self : t) : Element :=
  let element := _ColorStyle.etree_element __name__ (base self) in
  let element :=
    match scale self with
    | Some scale => SubElement element (ns self ++ "scale") (set_text (Some (str scale)))
    | None => element
    end in
  element.

Definition from_element (element : Element) : M t unit :=
  super base set_base (_ColorStyle.from_element element) ;;
  ns <- gets ns ;;
  match find element (ns ++ "scale") with
  | Some scale => x <- call (float_ (text scale)) ;; modify (set_scale (Some (Float x)))
  | None => pass
  end.

End LabelStyle.

(** ** class BalloonStyle(_BaseObject) *)

Module BalloonStyle.

Definition __name__ : string := "BalloonStyle".

Record t := {
  base : _BaseObject.t;
  bgColor : option string;
  textColor : option string;
  text : option string;
  displayMode : option string
}.

Definition ns (self : t) : string := _BaseObject.ns (base self).
Definition set_base (b : _BaseObject.t) (self : t) : t :=
  {| base := b; bgColor := bgColor self; textColor := textColor self;
     text := text self; displayMode := displayMode self |}.
Definition set_bgColor (v : option string) (self : t) : t :=
  {| base := base self; bgColor := v; textColor := textColor self;
     text := text self; displayMode := displayMode self |}.
Definition set_textColor (v : option string) (self : t) : t :=
  {| base := base self; bgColor := bgColor self; textColor := v;
     text := text self; displayMode := displayMode self |}.
Definition set_text (v : option string) (self : t) : t :=
  {| base := base self; bgColor := bgColor self; textColor := textColor self;
     text := v; displayMode := displayMode self |}.
Definition set_displayMode (v : option string) (self : t) : t :=
  {| base := base self; bgColor := bgColor self; textColor := textColor self;
     text := text self; displayMode := v |}.

Definition init (ns : string) (id bgColor textColor text displayMode : option string) : t :=
  {| base := _BaseObject.init ns id; bgColor := bgColor; textColor := textColor;
     text := text; displayMode := displayMode |}.

(** [BalloonStyle(ns)] *)
Definition new (ns : string) : t := init ns None None None None None.

Definition from_element (element : Element) : M t unit :=
  super base set_base (_BaseObject.from_element element) ;;
  ns <- gets ns ;;
  match find element (ns ++ "bgColor") with
  | Some bgColor => modify (set_bgColor (etree.text bgColor))
  | None =>
      match find element (ns ++ "color") with
      | Some bgColor => modify (set_bgColor (etree.text bgColor))
      | None => pass
      end
  end ;;
  match find element (ns ++ "textColor") with
  | Some textColor => modify (set_textColor (etree.text textColor))
  | None => pass
  end ;;
  match find element (ns ++ "text") with
  | Some text => modify (set_text (etree.text text))
  | None => pass
  end ;;
  match find element (ns ++ "displayMode") with
  | Some displayMode => modify (set_displayMode (etree.text displayMode))
  | None => pass
  end.

Definition etree_element (self : t) : Element :=
  let element := _BaseObject.etree_element __name__ (base self) in
  let element :=
    match bgColor self with
    | Some v => SubElement element (ns self ++ "bgColor") (etree.set_text (Some v))
    | None => element
    end in
  let element :=
    match textColor self with
    | Some v => SubElement element (ns self ++ "textColor") (etree.set_text (Some v))
    | None => element
    end in
  let element :=
    match text self with
    | Some v => SubElement element (ns self ++ "text") (etree.set_text (Some v))
    | None => element
    end in
  let element :=
    match displayMode self with
    | Some v => SubElement element (ns self ++ "displayMode") (etree.set_text (Some v))
    | None => element
    end in
  element.

End BalloonStyle.

(** ** Objects

    [Style._styles] and the two slots of a [StyleMap] are untyped in the
    source: they hold whatever the caller put there, and the code inspects it
    with [isinstance].  [object] is the universe of values they range over:
    [None], strings, numbers and instances of the concrete classes of this
    module.  [_ColorStyle] and [_StyleSelector] are abstract ("do not create")
    and have no instances of their own. *)

Record Style_ (object : Type) : Type := {
  Style_base : _BaseObject.t;
  Style_styles : list object
}.

Record StyleMap_ (object : Type) : Type := {
  StyleMap_base : _BaseObject.t;
  StyleMap_normal : object;
  StyleMap_highlight : object
}.

#[warnings="-register-all"]
Inductive object :=
| None_
| a_str (s : string)
| a_number (x : number)
| a_StyleUrl (o : StyleUrl.t)
| an_IconStyle (o : IconStyle.t)
| a_LineStyle (o : LineStyle.t)
| a_PolyStyle (o : PolyStyle.t)
| a_LabelStyle (o : LabelStyle.t)
| a_BalloonStyle (o : BalloonStyle.t)
| a_Style (o : Style_ object)
| a_StyleMap (o : StyleMap_ object).

(** [bool(o)]: instances of the classes define neither [__bool__] nor
    [__len__] and are true. *)
Definition bool_object (o : object) : bool :=
  match o with
  | None_ => false
  | a_str s => bool_str s
  | a_number x => bool_number x
  | _ => true
  end.

(** [isinstance(o, (_ColorStyle, BalloonStyle))] *)
Definition isinstance_ColorStyle_BalloonStyle (o : object) : bool :=
  match o with
  | an_IconStyle _ | a_LineStyle _ | a_PolyStyle _ | a_LabelStyle _ => true
  | a_BalloonStyle _ => true
  | _ => false
  end.

(** [isinstance(o, (Style, StyleUrl))] *)
Definition isinstance_Style_StyleUrl (o : object) : bool :=
  match o with
  | a_Style _ | a_StyleUrl _ => true
  | _ => false
  end.

(** [for x in l: body] *)
Fixpoint for_each {S A} (l : list A) (body : A -> M S unit) : M S unit :=
  match l with
  | [] => pass
  | x :: l' => body x ;; for_each l' body
  end.

(** ** class Style(_StyleSelector) *)

Module Style.

Definition __name__ : string := "Style".

Definition t : Type := Style_ object.
Definition base (self : t) : _BaseObject.t := Style_base object self.
Definition _styles (self : t) : list object := Style_styles object self.

Definition ns (self : t) : string := _BaseObject.ns (base self).
Definition set_base (b : _BaseObject.t) (self : t) : t :=
  {| Style_base := b; Style_styles := _styles self |}.
Definition set__styles (v : list object) (self : t) : t :=
  {| Style_base := base self; Style_styles := v |}.

Definition append_style (style : object) : M t unit :=
  if isinstance_ColorStyle_BalloonStyle style
  then modify (fun self => set__styles (_styles self ++ [style]) self)
  else raise TypeError.

(** [Style(ns, id, styles)]; an exception leaves no object behind. *)
Definition init (ns : string) (id : option string) (styles : list object) : result t :=
  let self := {| Style_base := _BaseObject.init ns id; Style_styles := [] |} in
  match for_each styles append_style self with
  | (Ok _, self') => Ok self'
  | (Raise e, _) => Raise e
  end.

(** [Style(ns)] *)
Definition new (ns : string) : t :=
  {| Style_base := _BaseObject.init ns None; Style_styles := [] |}.

(** The generator [styles()]: what it yields, in order, up to and including
    the exception it raises at the first member that fails the check. *)
Fixpoint styles_from (l : list object) : list (result object) :=
  match l with
  | [] => []
  | style :: l' =>
      if isinstance_ColorStyle_BalloonStyle style
      then Ok style :: styles_from l'
      else [Raise TypeError]
  end.

Definition styles (self : t) : list (result object) := styles_from (_styles self).

Definition from_element (element : Element) : M t unit :=
  super base set_base (_BaseObject.from_element element) ;;
  ns <- gets ns ;;
  match find element (ns ++ "IconStyle") with
  | Some style =>
      thestyle <- on_new (IconStyle.new ns) (IconStyle.from_element style) ;;
      append_style (an_IconStyle thestyle)
  | None => pass
  end ;;
  match find element (ns ++ "LineStyle") with
  | Some style =>
      thestyle <- on_new (LineStyle.new ns) (LineStyle.from_element style) ;;
      append_style (a_LineStyle thestyle)
  | None => pass
  end ;;
  match find element (ns ++ "PolyStyle") with
  | Some style =>
      thestyle <- on_new (PolyStyle.new ns) (PolyStyle.from_element style) ;;
      append_style (a_PolyStyle thestyle)
  | None => pass
  end ;;
  match find element (ns ++ "LabelStyle") with
  | Some style =>
      thestyle <- on_new (LabelStyle.new ns) (LabelStyle.from_element style) ;;
      append_style (a_LabelStyle thestyle)
  | None => pass
  end ;;
  match find element (ns ++ "BalloonStyle") with
  | Some style =>
      thestyle <- on_new (BalloonStyle.new ns) (BalloonStyle.from_element style) ;;
      append_style (a_BalloonStyle thestyle)
  | None => pass
  end.

(** [style.etree_element()] on what [styles()] yields: the method of the
    member's own class.  [styles()] yields nothing else; an object without
    the method would raise [AttributeError]. *)
Definition member_etree_element (style : object) : result Element :=
  match style with
  | an_IconStyle o => Ok (IconStyle.etree_element o)
  | a_LineStyle o => Ok (LineStyle.etree_element o)
  | a_PolyStyle o => Ok (PolyStyle.etree_element o)
  | a_LabelStyle o => Ok (LabelStyle.etree_element o)
  | a_BalloonStyle o => Ok (BalloonStyle.etree_element o)
  | _ => Raise AttributeError
  end.

(** [for style in self.styles(): element.append(style.etree_element())] *)
Fixpoint append_all (element : Element) (yielded : list (result object)) : result Element :=
  match yielded with
  | [] => Ok element
  | Ok style :: rest =>
      and_then (member_etree_element style) (fun child =>
        append_all (append element child) rest)
  | Raise e :: _ => Raise e
  end.

Definition etree_element (self : t) : result Element :=
  let element := _BaseObject.etree_element __name__ (base self) in
  append_all element (styles self).

End Style.

(** ** class StyleMap(_StyleSelector) *)

Module StyleMap.

Definition __name__ : string := "StyleMap".

Definition t : Type := StyleMap_ object.
Definition base (self : t) : _BaseObject.t := StyleMap_base object self.
Definition normal (self : t) : object := StyleMap_normal object self.
Definition highlight (self : t) : object := StyleMap_highlight object self.

Definition ns (self : t) : string := _BaseObject.ns (base self).
Definition set_base (b : _BaseObject.t) (self : t) : t :=
  {| StyleMap_base := b; StyleMap_normal := normal self;
     StyleMap_highlight := highlight self |}.
Definition set_normal (v : object) (self : t) : t :=
  {| StyleMap_base := base self; StyleMap_normal := v;
     StyleMap_highlight := highlight self |}.
Definition set_highlight (v : object) (self : t) : t :=
  {| StyleMap_base := base self; StyleMap_normal := normal self;
     StyleMap_highlight := v |}.

Definition init (ns : string) (id : option string) (normal highlight : object) : t :=
  {| StyleMap_base := _BaseObject.init ns id; StyleMap_normal := normal;
     StyleMap_highlight := highlight |}.

(** [StyleMap(ns)] *)
Definition new (ns : string) : t := init ns None None_ None_.

(** [key.text]: an attribute of what [find] returned, which may be [None] *)
Definition text_of (found : option Element) : result (option string) :=
  match found with
  | Some e => Ok (text e)
  | None => Raise AttributeError
  end.

(** [t == "literal"] for an element text [t] *)
Definition text_eq (t : option string) (literal : string) : bool :=
  match t with
  | Some s => String.eqb s literal
  | None => false
  end.

(** The [Style] or [StyleUrl] of a pair, decoded into a fresh object. *)
Definition pair_value (ns : string) (style style_url : option Element) : M t object :=
  match style with
  | Some style =>
      o <- on_new (Style.new ns) (Style.from_element style) ;;
      ret (a_Style o)
  | None =>
      match style_url with
      | Some style_url =>
          o <- on_new (StyleUrl.new ns) (StyleUrl.from_element style_url) ;;
          ret (a_StyleUrl o)
      | None => raise ValueError
      end
  end.

(** The body of [for pair in pairs:] *)
Definition from_pair (pair : Element) : M t unit :=
  ns <- gets ns ;;
  let key := find pair (ns ++ "key") in
  let style := find pair (ns ++ "Style") in
  let style_url := find pair (ns ++ "styleUrl") in
  key_text <- call (text_of key) ;;
  if text_eq key_text "highlight" then
    highlight <- pair_value ns style style_url ;;
    modify (set_highlight highlight)
  else if text_eq key_text "normal" then
    normal <- pair_value ns style style_url ;;
    modify (set_normal normal)
  else raise ValueError.

Definition from_element (element : Element) : M t unit :=
  super base set_base (_BaseObject.from_element element) ;;
  ns <- gets ns ;;
  let pairs := findall element (ns ++ "Pair") in
  for_each pairs from_pair.

(** [slot.etree_element()] behind [isinstance(slot, (Style, StyleUrl))] *)
Definition slot_etree_element (slot : object) : result Element :=
  match slot with
  | a_Style o => Style.etree_element o
  | a_StyleUrl o => StyleUrl.etree_element o
  | _ => Raise AttributeError
  end.

(** One [if self.slot and isinstance(self.slot, (Style, StyleUrl)):] block *)
Definition append_pair (ns key : string) (slot : object) (element : Element) : result Element :=
  if bool_object slot && isinstance_Style_StyleUrl slot then
    and_then (slot_etree_element slot) (fun content =>
      Ok (SubElement element (ns ++ "Pair") (fun pair =>
            let pair := SubElement pair (ns ++ "key") (set_text (Some key)) in
            append pair content)))
  else Ok element.

Definition etree_element (self : t) : result Element :=
  let element := _BaseObject.etree_element __name__ (base self) in
  and_then (append_pair (ns self) "normal" (normal self) element) (fun element =>
  and_then (append_pair (ns self) "highlight" (highlight self) element) (fun element =>
  Ok element)).

End StyleMap.

(* ================================================================== *)
(** * Vocabulary of the specification *)
(* ================================================================== *)

(** The runtime class of an object, [type(o)]. *)
Inductive class :=
| NoneType | class_str | class_int | class_float
| class_StyleUrl | class_IconStyle | class_LineStyle | class_PolyStyle
| class_LabelStyle | class_BalloonStyle | class_Style | class_StyleMap.

Definition type_ (o : object) : class :=
  match o with
  | None_ => NoneType
  | a_str _ => class_str
  | a_number (Int _) => class_int
  | a_number (Float _) => class_float
  | a_StyleUrl _ => class_StyleUrl
  | an_IconStyle _ => class_IconStyle
  | a_LineStyle _ => class_LineStyle
  | a_PolyStyle _ => class_PolyStyle
  | a_LabelStyle _ => class_LabelStyle
  | a_BalloonStyle _ => class_BalloonStyle
  | a_Style _ => class_Style
  | a_StyleMap _ => class_StyleMap
  end.

(** The five kinds a [Style] bundles. *)
Definition member_classes : list class :=
  [class_IconStyle; class_LineStyle; class_PolyStyle; class_LabelStyle; class_BalloonStyle].

(** The error kinds of the specification: a [ValueError] or [TypeError] raised
    by [styles.py] itself, and whatever a numeric conversion of element text
    raises. *)
Inductive ErrorKind := ValueKind | TypeKind | ParseKind.

Definition kind (e : exception) : option ErrorKind :=
  match e with
  | ValueError => Some ValueKind
  | TypeError => Some TypeKind
  | ConversionError _ => Some ParseKind
  | AttributeError => None
  end.

(** The canonical order of the children of a [Style] element. *)
Definition canonical_tags (ns : string) : list string :=
  [ns ++ "IconStyle"; ns ++ "LineStyle"; ns ++ "PolyStyle"; ns ++ "LabelStyle";
   ns ++ "BalloonStyle"].

Definition has_child (element : Element) (tag_ : string) : bool :=
  existsb (fun child => String.eqb (tag child) tag_) (children element).

(** ** Decoding a field from a child element *)

(** What decoding may do to a field read from the child [tag_]: keep the prior
    value when the child is absent, take what it reads from the child when it
    is there. *)
Definition field_from_child {A} (element : Element) (tag_ : string)
    (read : Element -> A) (before after : A) : Prop :=
  (find element tag_ = None -> after = before) /\
  (forall child, find element tag_ = Some child -> after = read child).

Definition field_kept_without {A} (element : Element) (tag_ : string)
    (before after : A) : Prop :=
  find element tag_ = None -> after = before.

Definition ColorStyle_decoded (element : Element) (self self' : _ColorStyle.t) : Prop :=
  _ColorStyle.ns self' = _ColorStyle.ns self /\
  field_from_child element (_ColorStyle.ns self ++ "color") text
    (_ColorStyle.color self) (_ColorStyle.color self') /\
  field_from_child element (_ColorStyle.ns self ++ "colorMode") text
    (_ColorStyle.colorMode self) (_ColorStyle.colorMode self').

(** ** The pairs of a StyleMap *)

(** What a slot of a [StyleMap] contributes to the encoding: the element of
    the [Style] or [StyleUrl] it holds, nothing for any other value. *)
Inductive slot_encodes : object -> option Element -> Prop :=
| encodes_Style (o : Style.t) (content : Element) :
    Style.etree_element o = Ok content -> slot_encodes (a_Style o) (Some content)
| encodes_StyleUrl (o : StyleUrl.t) (content : Element) :
    StyleUrl.etree_element o = Ok content -> slot_encodes (a_StyleUrl o) (Some content)
| encodes_nothing (slot : object) :
    ~ In (type_ slot) [class_Style; class_StyleUrl] -> slot_encodes slot None.

(** The [Pair] element of a slot: a [key] child, then the content. *)
Definition Pair_of (ns key : string) (content : option Element) : list Element :=
  match content with
  | Some content =>
      [{| tag := ns ++ "Pair"; attrib := []; text := None;
          children := [{| tag := ns ++ "key"; attrib := []; text := Some key;
                          children := [] |};
                       content] |}]
  | None => []
  end.

(** A [Pair] with a key that [StyleMap] refuses: the key is neither literal,
    or the pair holds neither a [Style] nor a [styleUrl]. *)
Definition refused_pair (ns : string) (pair : Element) : Prop :=
  exists key, find pair (ns ++ "key") = Some key /\
    ((text key <> Some "normal" /\ text key <> Some "highlight") \/
     (find pair (ns ++ "Style") = None /\ find pair (ns ++ "styleUrl") = None)).

(** ** The five probes of Style.from_element *)

(** One of the five blocks of [Style.from_element]: look for the child, decode
    it into a fresh object of the class, append the object. *)
Definition probe {T} (name : string) (new : string -> T) (decode : Element -> M T unit)
    (wrap : T -> object) (ns : string) (element : Element) : M Style.t unit :=
  match find element (ns ++ name) with
  | Some style =>
      thestyle <- on_new (new ns) (decode style) ;;
      Style.append_style (wrap thestyle)
  | None => pass
  end.

(** A member that [Style.etree_element] encodes under the tag [t]. *)
Definition member_with_tag (o : object) (t : string) : Prop :=
  isinstance_ColorStyle_BalloonStyle o = true /\
  exists el, Style.member_etree_element o = Ok el /\ tag el = t.

(** ** Populated instances *)

Definition is_set {A} (v : option A) : bool :=
  match v with Some _ => true | None => false end.

(** Every field of the instance holds a value. *)
Definition IconStyle_fully_populated (v : IconStyle.t) : bool :=
  is_set (_BaseObject.id (_ColorStyle.base (IconStyle.base v))) &&
  is_set (_ColorStyle.color (IconStyle.base v)) &&
  is_set (_ColorStyle.colorMode (IconStyle.base v)) &&
  is_set (IconStyle.scale v) && is_set (IconStyle.heading v) &&
  is_set (IconStyle.icon_href v).

(** A string field that the encoder writes out: set, and not empty. *)
Definition written_str (v : option string) : Prop :=
  exists s, v = Some s /\ s <> "".

(** A numeric field that holds a float which [str] and [float] reproduce. *)
Definition written_float (v : option number) : Prop :=
  exists x, v = Some (Float x) /\ float_ (Some (str (Float x))) = Ok x.

(** A numeric field that holds an int which [str], [float] and [int]
    reproduce. *)
Definition written_int (v : option number) : Prop :=
  exists n, v = Some (Int n) /\ PolyStyle.int_float (Some (str (Int n))) = Ok n.

Definition nonzero (v : option number) : Prop :=
  exists h, v = Some h /\ bool_number h = true.

(** ** Sample values *)

Module Sample.

Definition zero : float := S754_zero false.
Definition ninety : float := S754_finite false 6333186975989760 (-46).
Definition two_and_a_half : float := S754_finite false 5629499534213120 (-51).

Definition leaf (tag_ : string) (text_ : string) : Element :=
  {| tag := tag_; attrib := []; text := Some text_; children := [] |}.

Definition node (tag_ : string) (children_ : list Element) : Element :=
  {| tag := tag_; attrib := []; text := None; children := children_ |}.

Definition icon : IconStyle.t :=
  IconStyle.init "" (Some "i1") (Some "ff0000ff") (Some "normal")
    (Some (Float two_and_a_half)) (Some (Float ninety)) (Some "http://example.com/i.png").

(** Every field set, the heading due north. *)
Definition icon_north : IconStyle.t :=
  IconStyle.init "" (Some "i1") (Some "ff0000ff") (Some "normal")
    (Some (Float two_and_a_half)) (Some (Float zero)) (Some "http://example.com/i.png").

Definition line : LineStyle.t :=
  LineStyle.init "" (Some "l1") (Some "ff0000ff") (Some "random")
    (Some (Float two_and_a_half)).

Definition poly : PolyStyle.t :=
  PolyStyle.init "" (Some "p1") (Some "ff0000ff") (Some "random")
    (Some (Int 1)) (Some (Int 0)).

Definition label : LabelStyle.t :=
  LabelStyle.init "" (Some "b1") (Some "ff0000ff") (Some "normal")
    (Some (Float two_and_a_half)).

Definition style_url : StyleUrl.t := StyleUrl.init "" (Some "u1") (Some "#s1").

(** [<Style>] with its children in the order Label, Icon, Poly, Line, Balloon *)
Definition shuffled_style : Element :=
  node "Style"
    [node "LabelStyle" [leaf "scale" "2.5"];
     node "IconStyle" [leaf "heading" "90"];
     node "PolyStyle" [leaf "fill" "1.0"; leaf "outline" "0"];
     node "LineStyle" [leaf "color" "ff0000ff"; leaf "width" "2.5"];
     node "BalloonStyle" [leaf "text" "$[name]"]].

(** [<Pair><key>sideways</key><styleUrl>#s1</styleUrl></Pair>] *)
Definition sideways_pair : Element :=
  node "Pair" [leaf "key" "sideways"; leaf "styleUrl" "#s1"].

(** [<Pair><key>normal</key></Pair>] *)
Definition empty_pair : Element := node "Pair" [leaf "key" "normal"].

(** [<Pair/>] *)
Definition bare_pair : Element := node "Pair" [].

(** [<PolyStyle><fill>1.0</fill><outline>0</outline></PolyStyle>] *)
Definition poly_element : Element :=
  node "PolyStyle" [leaf "fill" "1.0"; leaf "outline" "0"].

(** [<PolyStyle><fill>yes</fill></PolyStyle>] *)
Definition poly_malformed : Element := node "PolyStyle" [leaf "fill" "yes"].

(** [<BalloonStyle><color>ff112233</color></BalloonStyle>] *)
Definition legacy_balloon : Element := node "BalloonStyle" [leaf "color" "ff112233"].

(** [<LineStyle><color>ff0000ff</color></LineStyle>] *)
Definition colored_line : Element := node "LineStyle" [leaf "color" "ff0000ff"].

End Sample.

(* ================================================================== *)
(** * Properties *)
(* ================================================================== *)

(** ** Tags, children and lookups *)

Lemma eqb_prefix (ns a b : string) : String.eqb (ns ++ a) (ns ++ b) = String.eqb a b.
Proof.
  induction ns as [|c ns IH]; simpl; [reflexivity|].
  rewrite Ascii.eqb_refl. exact IH.
Qed.

Lemma bool_str_true (s : string) : bool_str s = true <-> s <> "".
Proof.
  unfold bool_str. destruct (String.eqb_spec s ""); simpl; split; congruence.
Qed.

Lemma find_append (element child : Element) (t : string) :
  find (append element child) t =
  match find element t with
  | Some x => Some x
  | None => if String.eqb (tag child) t then Some child else None
  end.
Proof.
  unfold find, append; simpl.
  induction (children element) as [|x l IH]; simpl.
  - reflexivity.
  - destruct (String.eqb (tag x) t); [reflexivity | exact IH].
Qed.

Lemma has_child_append (element child : Element) (t : string) :
  has_child (append element child) t = has_child element t || String.eqb (tag child) t.
Proof.
  unfold has_child, append; simpl. rewrite existsb_app. simpl.
  now rewrite orb_false_r.
Qed.

Lemma has_child_find (element : Element) (t : string) :
  has_child element t = match find element t with Some _ => true | None => false end.
Proof.
  unfold has_child, find. induction (children element) as [|x l IH]; simpl; auto.
  destruct (String.eqb (tag x) t); auto.
Qed.

Lemma find_none_has_child (element : Element) (t : string) :
  has_child element t = false <-> find element t = None.
Proof. rewrite has_child_find. destruct (find element t); split; congruence. Qed.

Lemma tag_append (element child : Element) : tag (append element child) = tag element.
Proof. reflexivity. Qed.

(** ** The base object *)

Section BaseObject.

Variable name : string.
Variable b : _BaseObject.t.

Lemma children_base : children (_BaseObject.etree_element name b) = [].
Proof. unfold _BaseObject.etree_element; destruct (_BaseObject.id b); reflexivity. Qed.

Lemma tag_base : tag (_BaseObject.etree_element name b) = _BaseObject.ns b ++ name.
Proof. unfold _BaseObject.etree_element; destruct (_BaseObject.id b); reflexivity. Qed.

Lemma has_child_base (t : string) : has_child (_BaseObject.etree_element name b) t = false.
Proof. unfold has_child. now rewrite children_base. Qed.

Variable element : Element.

Lemma BaseObject_from_element_ok :
  fst (_BaseObject.from_element element b) = Ok tt /\
  _BaseObject.ns (snd (_BaseObject.from_element element b)) = _BaseObject.ns b.
Proof.
  unfold _BaseObject.from_element. destruct (get element "id"); split; reflexivity.
Qed.

Lemma BaseObject_from_element_eq :
  _BaseObject.from_element element b = (Ok tt, snd (_BaseObject.from_element element b)).
Proof.
  unfold _BaseObject.from_element. destruct (get element "id"); reflexivity.
Qed.

End BaseObject.

(** Unfolding a method body down to the case analysis on what [find] returns. *)
Ltac unfold_methods :=
  unfold bind, super, gets, modify, pass, call, ret, raise, on_new.

Ltac method := unfold_methods; simpl.

(** ** StyleUrl *)

(** C5. Encoding a [StyleUrl] whose url is unset or empty raises
    [ValueError] (a ValueKind error) and returns no element; with a non-empty
    url it returns one element, tagged [styleUrl], childless, whose text is the
    url. *)
Theorem StyleUrl_etree_element_needs_url (self : StyleUrl.t) :
  (StyleUrl.url self = None \/ StyleUrl.url self = Some "" ->
   StyleUrl.etree_element self = Raise ValueError /\
   kind ValueError = Some ValueKind)
  /\
  (forall u, StyleUrl.url self = Some u -> u <> "" ->
   exists element,
     StyleUrl.etree_element self = Ok element /\
     tag element = StyleUrl.ns self ++ "styleUrl" /\
     text element = Some u /\
     children element = []).
Proof.
  split.
  - intros [H | H]; unfold StyleUrl.etree_element; rewrite H; split; reflexivity.
  - intros u H Hu. unfold StyleUrl.etree_element. rewrite H.
    apply bool_str_true in Hu. rewrite Hu.
    eexists; split; [reflexivity|].
    simpl. rewrite tag_base, children_base. auto.
Qed.

Lemma StyleUrl_etree_element_needs_url_witness :
  StyleUrl.etree_element (StyleUrl.init "" None (Some "")) = Raise ValueError /\
  exists element,
    StyleUrl.etree_element Sample.style_url = Ok element /\ text element = Some "#s1".
Proof.
  split.
  - apply (StyleUrl_etree_element_needs_url (StyleUrl.init "" None (Some ""))).
    right; reflexivity.
  - destruct (proj2 (StyleUrl_etree_element_needs_url Sample.style_url) "#s1")
      as [element [H1 [_ [H2 _]]]].
    + reflexivity.
    + discriminate.
    + exists element. split; assumption.
Defined.

(** ** Style.append_style *)

(** C2. [append_style] accepts a member exactly when its class is one of
    IconStyle, LineStyle, PolyStyle, LabelStyle, BalloonStyle, and then stores
    it last; for a member of any other class it raises [TypeError] (a TypeKind
    error) and leaves the bundle as it was. *)
Theorem Style_append_style_admission (self : Style.t) (style : object) :
  (In (type_ style) member_classes ->
   Style.append_style style self =
     (Ok tt, Style.set__styles (Style._styles self ++ [style]) self))
  /\
  (~ In (type_ style) member_classes ->
   Style.append_style style self = (Raise TypeError, self) /\
   kind TypeError = Some TypeKind).
Proof.
  unfold Style.append_style, member_classes.
  split; intros H.
  - destruct style as [| | [|] | | | | | | | |]; simpl in H;
      try reflexivity; exfalso; intuition discriminate.
  - destruct style as [| | [|] | | | | | | | |]; simpl in H;
      try (split; reflexivity); exfalso; apply H; tauto.
Qed.

Lemma Style_append_style_admission_witness :
  Style.append_style (a_LineStyle Sample.line) (Style.new "") =
    (Ok tt, Style.set__styles [a_LineStyle Sample.line] (Style.new "")) /\
  Style.append_style (a_StyleUrl Sample.style_url) (Style.new "") =
    (Raise TypeError, Style.new "").
Proof.
  split.
  - apply (proj1 (Style_append_style_admission (Style.new "") (a_LineStyle Sample.line))).
    simpl. tauto.
  - apply (proj2 (Style_append_style_admission (Style.new "") (a_StyleUrl Sample.style_url))).
    simpl. intros [H|[H|[H|[H|[H|[]]]]]]; discriminate H.
Defined.

(** ** _ColorStyle and its subclasses: decoding *)

Lemma ColorStyle_from_element_eq (element : Element) (self : _ColorStyle.t) :
  _ColorStyle.from_element element self =
  (Ok tt,
   {| _ColorStyle.base := snd (_BaseObject.from_element element (_ColorStyle.base self));
      _ColorStyle.color :=
        match find element (_ColorStyle.ns self ++ "color") with
        | Some c => text c
        | None => _ColorStyle.color self
        end;
      _ColorStyle.colorMode :=
        match find element (_ColorStyle.ns self ++ "colorMode") with
        | Some c => text c
        | None => _ColorStyle.colorMode self
        end |}).
Proof.
  unfold _ColorStyle.from_element, _BaseObject.from_element, _ColorStyle.ns.
  destruct self as [[ns id] c cm]. method.
  destruct (get element "id"); simpl;
    destruct (find element (ns ++ "colorMode"));
    destruct (find element (ns ++ "color")); reflexivity.
Qed.

Lemma ColorStyle_from_element_decoded (element : Element) (self : _ColorStyle.t) :
  ColorStyle_decoded element self (snd (_ColorStyle.from_element element self)).
Proof.
  rewrite ColorStyle_from_element_eq. unfold ColorStyle_decoded, field_from_child.
  simpl. unfold _ColorStyle.ns at 1. simpl.
  split; [apply BaseObject_from_element_ok|].
  split; split.
  - intros H; rewrite H; reflexivity.
  - intros c H; rewrite H; reflexivity.
  - intros H; rewrite H; reflexivity.
  - intros c H; rewrite H; reflexivity.
Qed.

(** In [E : Sub.from_element element self = (r, self')], replace the call of
    the inherited [_ColorStyle.from_element] by its result [b'], known only
    through [D : ColorStyle_decoded element b b']. *)
Ltac subclass_decode E D :=
  match type of E with
  | context [_ColorStyle.from_element ?e ?b] =>
      let b' := fresh "b'" in
      pose proof (ColorStyle_from_element_decoded e b) as D;
      rewrite (ColorStyle_from_element_eq e b) in D;
      rewrite (ColorStyle_from_element_eq e b) in E;
      simpl snd in D;
      match type of D with
      | ColorStyle_decoded _ _ ?r => set (b' := r) in *; clearbody b'
      end
  end.

Ltac finish_frame E D :=
  simpl in E; inversion E; subst; simpl;
  repeat split; try apply D; intros; try discriminate; reflexivity.

Lemma IconStyle_from_element_frame (element : Element) (self : IconStyle.t) :
  let self' := snd (IconStyle.from_element element self) in
  ColorStyle_decoded element (IconStyle.base self) (IconStyle.base self') /\
  field_kept_without element (IconStyle.ns self ++ "scale")
    (IconStyle.scale self) (IconStyle.scale self') /\
  field_kept_without element (IconStyle.ns self ++ "heading")
    (IconStyle.heading self) (IconStyle.heading self') /\
  field_kept_without element (IconStyle.ns self ++ "Icon")
    (IconStyle.icon_href self) (IconStyle.icon_href self').
Proof.
  unfold field_kept_without.
  destruct (IconStyle.from_element element self) as [r self'] eqn:E. simpl snd.
  unfold IconStyle.from_element, IconStyle.ns in *.
  destruct self as [b sc hd ih]. unfold super, bind at 1 in E. simpl IconStyle.base in *.
  subclass_decode E D. revert E. method. unfold IconStyle.ns; simpl.
  rewrite (proj1 D).
  destruct (find element (_ColorStyle.ns b ++ "scale")) as [s|];
    [destruct (float_ (text s))|];
    (destruct (find element (_ColorStyle.ns b ++ "heading")) as [h|];
      [destruct (float_ (text h))|]);
    (destruct (find element (_ColorStyle.ns b ++ "Icon")) as [i|];
      [destruct (find i (_ColorStyle.ns b ++ "href"))|]);
    intros E; finish_frame E D.
Qed.

Lemma LineStyle_from_element_frame (element : Element) (self : LineStyle.t) :
  let self' := snd (LineStyle.from_element element self) in
  ColorStyle_decoded element (LineStyle.base self) (LineStyle.base self') /\
  field_kept_without element (LineStyle.ns self ++ "width")
    (LineStyle.width self) (LineStyle.width self').
Proof.
  unfold field_kept_without.
  destruct (LineStyle.from_element element self) as [r self'] eqn:E. simpl snd.
  unfold LineStyle.from_element, LineStyle.ns in *.
  destruct self as [b w]. unfold super, bind at 1 in E. simpl LineStyle.base in *.
  subclass_decode E D. revert E. method. unfold LineStyle.ns; simpl.
  rewrite (proj1 D).
  destruct (find element (_ColorStyle.ns b ++ "width")) as [s|];
    [destruct (float_ (text s))|];
    intros E; finish_frame E D.
Qed.

Lemma PolyStyle_from_element_frame (element : Element) (self : PolyStyle.t) :
  let self' := snd (PolyStyle.from_element element self) in
  ColorStyle_decoded element (PolyStyle.base self) (PolyStyle.base self') /\
  field_kept_without element (PolyStyle.ns self ++ "fill")
    (PolyStyle.fill self) (PolyStyle.fill self') /\
  field_kept_without element (PolyStyle.ns self ++ "outline")
    (PolyStyle.outline self) (PolyStyle.outline self').
Proof.
  unfold field_kept_without.
  destruct (PolyStyle.from_element element self) as [r self'] eqn:E. simpl snd.
  unfold PolyStyle.from_element, PolyStyle.ns in *.
  destruct self as [b f o]. unfold super, bind at 1 in E. simpl PolyStyle.base in *.
  subclass_decode E D. revert E. method. unfold PolyStyle.ns; simpl.
  rewrite (proj1 D).
  destruct (find element (_ColorStyle.ns b ++ "fill")) as [s|];
    [destruct (PolyStyle.int_float (text s))|];
    (destruct (find element (_ColorStyle.ns b ++ "outline")) as [h|];
      [destruct (PolyStyle.int_float (text h))|]);
    intros E; finish_frame E D.
Qed.

Lemma LabelStyle_from_element_frame (element : Element) (self : LabelStyle.t) :
  let self' := snd (LabelStyle.from_element element self) in
  ColorStyle_decoded element (LabelStyle.base self) (LabelStyle.base self') /\
  field_kept_without element (LabelStyle.ns self ++ "scale")
    (LabelStyle.scale self) (LabelStyle.scale self').
Proof.
  unfold field_kept_without.
  destruct (LabelStyle.from_element element self) as [r self'] eqn:E. simpl snd.
  unfold LabelStyle.from_element, LabelStyle.ns in *.
  destruct self as [b w]. unfold super, bind at 1 in E. simpl LabelStyle.base in *.
  subclass_decode E D. revert E. method. unfold LabelStyle.ns; simpl.
  rewrite (proj1 D).
  destruct (find element (_ColorStyle.ns b ++ "scale")) as [s|];
    [destruct (float_ (text s))|];
    intros E; finish_frame E D.
Qed.

(** C9. Decoding a color style assigns [color] and [colorMode] only from a
    child that is present: the field takes the child's text when the child is
    there and keeps its prior value when it is not, and [_ColorStyle] decoding
    always returns.  The same holds for the inherited fields of the four
    subclasses, whose own fields ([scale], [heading], [icon_href], [width],
    [fill], [outline]) likewise keep their prior value (a default of the
    constructor included) when their child is absent. *)
Theorem ColorStyle_decode_sets_only_found (element : Element) :
  (forall self : _ColorStyle.t,
     fst (_ColorStyle.from_element element self) = Ok tt /\
     ColorStyle_decoded element self (snd (_ColorStyle.from_element element self)))
  /\
  (forall self : IconStyle.t,
     let self' := snd (IconStyle.from_element element self) in
     ColorStyle_decoded element (IconStyle.base self) (IconStyle.base self') /\
     field_kept_without element (IconStyle.ns self ++ "scale")
       (IconStyle.scale self) (IconStyle.scale self') /\
     field_kept_without element (IconStyle.ns self ++ "heading")
       (IconStyle.heading self) (IconStyle.heading self') /\
     field_kept_without element (IconStyle.ns self ++ "Icon")
       (IconStyle.icon_href self) (IconStyle.icon_href self'))
  /\
  (forall self : LineStyle.t,
     let self' := snd (LineStyle.from_element element self) in
     ColorStyle_decoded element (LineStyle.base self) (LineStyle.base self') /\
     field_kept_without element (LineStyle.ns self ++ "width")
       (LineStyle.width self) (LineStyle.width self'))
  /\
  (forall self : PolyStyle.t,
     let self' := snd (PolyStyle.from_element element self) in
     ColorStyle_decoded element (PolyStyle.base self) (PolyStyle.base self') /\
     field_kept_without element (PolyStyle.ns self ++ "fill")
       (PolyStyle.fill self) (PolyStyle.fill self') /\
     field_kept_without element (PolyStyle.ns self ++ "outline")
       (PolyStyle.outline self) (PolyStyle.outline self'))
  /\
  (forall self : LabelStyle.t,
     let self' := snd (LabelStyle.from_element element self) in
     ColorStyle_decoded element (LabelStyle.base self) (LabelStyle.base self') /\
     field_kept_without element (LabelStyle.ns self ++ "scale")
       (LabelStyle.scale self) (LabelStyle.scale self')).
Proof.
  split; [|split; [|split; [|split]]].
  - intros self. split.
    + now rewrite ColorStyle_from_element_eq.
    + apply ColorStyle_from_element_decoded.
  - apply IconStyle_from_element_frame.
  - apply LineStyle_from_element_frame.
  - apply PolyStyle_from_element_frame.
  - apply LabelStyle_from_element_frame.
Qed.

Lemma ColorStyle_decode_sets_only_found_witness :
  let self' := snd (LineStyle.from_element Sample.colored_line (LineStyle.new "")) in
  _ColorStyle.color (LineStyle.base self') = Some "ff0000ff" /\
  _ColorStyle.colorMode (LineStyle.base self') = None /\
  LineStyle.width self' = Some (Int 1).
Proof.
  destruct (ColorStyle_decode_sets_only_found Sample.colored_line)
    as (_ & _ & H & _).
  destruct (H (LineStyle.new "")) as ((_ & (_ & C) & (M & _)) & W).
  split; [|split].
  - apply (C (Sample.leaf "color" "ff0000ff")). reflexivity.
  - apply M. reflexivity.
  - apply W. reflexivity.
Defined.

(** ** _ColorStyle and its subclasses: encoding *)

Lemma ColorStyle_etree_element_has_child (name : string) (self : _ColorStyle.t) (t : string) :
  has_child (_ColorStyle.etree_element name self) (_ColorStyle.ns self ++ t) = true ->
  t = "color" \/ t = "colorMode".
Proof.
  unfold _ColorStyle.etree_element, SubElement.
  destruct (_ColorStyle.truthy (_ColorStyle.color self)),
           (_ColorStyle.truthy (_ColorStyle.colorMode self));
    rewrite ?has_child_append, has_child_base; simpl; rewrite ?eqb_prefix;
    intros H; repeat (apply orb_prop in H; destruct H as [H|H]);
    try discriminate; apply String.eqb_eq in H; auto.
Qed.

Lemma ColorStyle_etree_element_lacks (name : string) (self : _ColorStyle.t) (t : string) :
  t <> "color" -> t <> "colorMode" ->
  has_child (_ColorStyle.etree_element name self) (_ColorStyle.ns self ++ t) = false.
Proof.
  intros H1 H2.
  destruct (has_child _ _) eqn:E; [|reflexivity].
  apply ColorStyle_etree_element_has_child in E. tauto.
Qed.

Lemma tag_ColorStyle (name : string) (self : _ColorStyle.t) :
  tag (_ColorStyle.etree_element name self) = _ColorStyle.ns self ++ name.
Proof.
  unfold _ColorStyle.etree_element, SubElement.
  destruct (_ColorStyle.truthy (_ColorStyle.color self)),
           (_ColorStyle.truthy (_ColorStyle.colorMode self));
    rewrite ?tag_append; apply tag_base.
Qed.

Lemma tag_IconStyle (self : IconStyle.t) :
  tag (IconStyle.etree_element self) = IconStyle.ns self ++ "IconStyle".
Proof.
  unfold IconStyle.etree_element, SubElement.
  destruct (IconStyle.scale self), (IconStyle.heading self) as [h|],
           (_ColorStyle.truthy (IconStyle.icon_href self));
    try destruct (bool_number h); rewrite ?tag_append; apply tag_ColorStyle.
Qed.

Lemma tag_LineStyle (self : LineStyle.t) :
  tag (LineStyle.etree_element self) = LineStyle.ns self ++ "LineStyle".
Proof.
  unfold LineStyle.etree_element, SubElement.
  destruct (LineStyle.width self); rewrite ?tag_append; apply tag_ColorStyle.
Qed.

Lemma tag_PolyStyle (self : PolyStyle.t) :
  tag (PolyStyle.etree_element self) = PolyStyle.ns self ++ "PolyStyle".
Proof.
  unfold PolyStyle.etree_element, SubElement.
  destruct (PolyStyle.fill self), (PolyStyle.outline self);
    rewrite ?tag_append; apply tag_ColorStyle.
Qed.

Lemma tag_LabelStyle (self : LabelStyle.t) :
  tag (LabelStyle.etree_element self) = LabelStyle.ns self ++ "LabelStyle".
Proof.
  unfold LabelStyle.etree_element, SubElement.
  destruct (LabelStyle.scale self); rewrite ?tag_append; apply tag_ColorStyle.
Qed.

Lemma tag_BalloonStyle (self : BalloonStyle.t) :
  tag (BalloonStyle.etree_element self) = BalloonStyle.ns self ++ "BalloonStyle".
Proof.
  unfold BalloonStyle.etree_element, SubElement.
  destruct (BalloonStyle.bgColor self), (BalloonStyle.textColor self),
           (BalloonStyle.text self), (BalloonStyle.displayMode self);
    rewrite ?tag_append; apply tag_base.
Qed.

(** ** IconStyle: the heading *)

(** C10. An [IconStyle] whose heading is zero (0.0 in particular) is encoded
    without a [heading] child, and decoding that element into a fresh
    [IconStyle] leaves the heading [None]; a heading that is not zero is
    encoded as a [heading] child whose text is [str] of the value. *)
Theorem IconStyle_heading_zero_omitted (self : IconStyle.t) :
  let ns := IconStyle.ns self in
  let element := IconStyle.etree_element self in
  (forall h, IconStyle.heading self = Some h -> bool_number h = false ->
     has_child element (ns ++ "heading") = false /\
     IconStyle.heading (snd (IconStyle.from_element element (IconStyle.new ns))) = None)
  /\
  (forall h, IconStyle.heading self = Some h -> bool_number h = true ->
     find element (ns ++ "heading") =
       Some {| tag := ns ++ "heading"; attrib := []; text := Some (str h);
               children := [] |})
  /\
  bool_number (Float Sample.zero) = false.
Proof.
  intros ns element.
  assert (L : forall t, t <> "color" -> t <> "colorMode" ->
            has_child (_ColorStyle.etree_element IconStyle.__name__ (IconStyle.base self))
              (ns ++ t) = false)
    by (intros; apply ColorStyle_etree_element_lacks; assumption).
  split; [|split; [|reflexivity]].
  - intros h Hh Hz.
    assert (A : has_child element (ns ++ "heading") = false).
    { subst element. unfold IconStyle.etree_element. rewrite Hh, Hz. fold ns.
      unfold SubElement.
      destruct (IconStyle.scale self), (_ColorStyle.truthy (IconStyle.icon_href self));
        rewrite ?has_child_append, L by discriminate; simpl;
        rewrite ?eqb_prefix; reflexivity. }
    split; [exact A|].
    apply find_none_has_child in A.
    destruct (IconStyle_from_element_frame element (IconStyle.new ns)) as (_ & _ & F & _).
    rewrite F; [reflexivity | exact A].
  - intros h Hh Hz. subst element. unfold IconStyle.etree_element. rewrite Hh, Hz. fold ns.
    unfold SubElement.
    destruct (IconStyle.scale self), (_ColorStyle.truthy (IconStyle.icon_href self));
      rewrite ?find_append; simpl;
      rewrite (proj1 (find_none_has_child _ _)
                 (L "heading" ltac:(discriminate) ltac:(discriminate)));
      simpl; rewrite ?eqb_prefix; simpl; rewrite ?String.eqb_refl; reflexivity.
Qed.

Lemma IconStyle_heading_zero_omitted_witness :
  (has_child (IconStyle.etree_element Sample.icon_north) "heading" = false /\
   IconStyle.heading
     (snd (IconStyle.from_element (IconStyle.etree_element Sample.icon_north)
             (IconStyle.new ""))) = None) /\
  find (IconStyle.etree_element Sample.icon) "heading" = Some (Sample.leaf "heading" "90.0").
Proof.
  split.
  - apply (proj1 (IconStyle_heading_zero_omitted Sample.icon_north) (Float Sample.zero));
      reflexivity.
  - apply (proj1 (proj2 (IconStyle_heading_zero_omitted Sample.icon)) (Float Sample.ninety));
      reflexivity.
Defined.

(** ** PolyStyle: fill and outline *)

Lemma float_raises_ParseKind (t : option string) (e : exception) :
  float_ t = Raise e -> kind e = Some ParseKind.
Proof.
  unfold float_. destruct t as [s|]; [destruct (float_of_chars _)|];
    intros H; inversion H; reflexivity.
Qed.

Lemma int_raises_ParseKind (x : float) (e : exception) :
  int_ x = Raise e -> kind e = Some ParseKind.
Proof. destruct x; simpl; intros H; inversion H; reflexivity. Qed.

Lemma int_float_raises_ParseKind (t : option string) (e : exception) :
  PolyStyle.int_float t = Raise e -> kind e = Some ParseKind.
Proof.
  unfold PolyStyle.int_float, and_then. destruct (float_ t) eqn:F.
  - apply int_raises_ParseKind.
  - intros H; inversion H; subst. eapply float_raises_ParseKind; eassumption.
Qed.

(** [int] of a finite float [m * 2^e] is the integer part of its magnitude,
    with its sign: truncation towards zero. *)
Lemma int_truncates (sgn : bool) (m : positive) (e n : Z) :
  int_ (S754_finite sgn m e) = Ok n ->
  Z.abs n = (if 0 <=? e then Zpos m * 2 ^ e else Zpos m / 2 ^ (- e)) /\
  (if sgn then n <= 0 else 0 <= n).
Proof.
  unfold int_. intros H.
  assert (Q : (if 0 <=? e then Z.shiftl (Zpos m) e else Z.shiftr (Zpos m) (- e)) =
              (if 0 <=? e then Zpos m * 2 ^ e else Zpos m / 2 ^ (- e))).
  { destruct (Z.leb_spec 0 e).
    - apply Z.shiftl_mul_pow2. lia.
    - apply Z.shiftr_div_pow2. lia. }
  rewrite Q in H. clear Q.
  assert (P : 0 <= (if 0 <=? e then Zpos m * 2 ^ e else Zpos m / 2 ^ (- e))).
  { destruct (Z.leb_spec 0 e).
    - apply Z.mul_nonneg_nonneg; [lia | apply Z.pow_nonneg; lia].
    - apply Z.div_pos; [lia | apply Z.pow_pos_nonneg; lia]. }
  revert H P.
  generalize (if 0 <=? e then Zpos m * 2 ^ e else Zpos m / 2 ^ (- e)).
  intros a H P. destruct sgn; inversion H; subst; split; lia.
Qed.

(** C6. [PolyStyle] decoding reads [fill] and [outline] as [int(float(text))]:
    the field becomes the integer that [int] makes of the float that [float]
    reads, so the text "1.0" (and "1") gives 1 and "0" gives 0, with
    truncation towards zero ("2.9" gives 2, "-2.9" gives -2); text that the
    conversion rejects makes the decoding raise the conversion's exception, and
    every exception of the decoding is a ParseKind error. *)
Theorem PolyStyle_from_element_int_float (element : Element) (self : PolyStyle.t) :
  let ns := PolyStyle.ns self in
  let r := PolyStyle.from_element element self in
  (forall fill, find element (ns ++ "fill") = Some fill ->
     (forall x n, float_ (text fill) = Ok x -> int_ x = Ok n ->
        PolyStyle.fill (snd r) = Some (Int n)) /\
     (forall e, PolyStyle.int_float (text fill) = Raise e -> fst r = Raise e))
  /\
  (forall outline, find element (ns ++ "outline") = Some outline ->
     (forall x n, fst r = Ok tt -> float_ (text outline) = Ok x -> int_ x = Ok n ->
        PolyStyle.outline (snd r) = Some (Int n)) /\
     (forall e, PolyStyle.int_float (text outline) = Raise e -> exists e', fst r = Raise e'))
  /\
  (forall e, fst r = Raise e -> kind e = Some ParseKind)
  /\
  PolyStyle.int_float (Some "1.0") = Ok 1 /\
  PolyStyle.int_float (Some "1") = Ok 1 /\
  PolyStyle.int_float (Some "0") = Ok 0 /\
  PolyStyle.int_float (Some "2.9") = Ok 2 /\
  PolyStyle.int_float (Some "-2.9") = Ok (-2) /\
  PolyStyle.int_float (Some "yes") = Raise (ConversionError float_ValueError).
Proof.
  intros ns r.
  destruct (PolyStyle.from_element element self) as [res self'] eqn:E.
  subst r ns. simpl fst. simpl snd.
  unfold PolyStyle.from_element, PolyStyle.ns in *.
  destruct self as [b f o]. unfold super, bind at 1 in E. simpl PolyStyle.base in *.
  subclass_decode E D. revert E. method. unfold PolyStyle.ns; simpl.
  rewrite (proj1 D). intros E.
  split; [|split; [|split]].
  - intros fill Hf. rewrite Hf in E.
    split.
    + intros x n Hx Hn.
      assert (Hi : PolyStyle.int_float (text fill) = Ok n)
        by (unfold PolyStyle.int_float, and_then; rewrite Hx; exact Hn).
      rewrite Hi in E. revert E.
      destruct (find element (_ColorStyle.ns b ++ "outline")) as [h|];
        [destruct (PolyStyle.int_float (text h))|];
        intros E; inversion E; reflexivity.
    + intros e He. rewrite He in E. inversion E; reflexivity.
  - intros outline Ho. rewrite Ho in E.
    split.
    + intros x n Hr Hx Hn. subst res.
      assert (Hi : PolyStyle.int_float (text outline) = Ok n)
        by (unfold PolyStyle.int_float, and_then; rewrite Hx; exact Hn).
      rewrite Hi in E. revert E.
      destruct (find element (_ColorStyle.ns b ++ "fill")) as [s|];
        [destruct (PolyStyle.int_float (text s))|];
        intros E; inversion E; reflexivity.
    + intros e He. rewrite He in E. revert E.
      destruct (find element (_ColorStyle.ns b ++ "fill")) as [s|];
        [destruct (PolyStyle.int_float (text s))|];
        intros E; inversion E; eexists; reflexivity.
  - intros e Hr. subst res. revert E.
    destruct (find element (_ColorStyle.ns b ++ "fill")) as [s|];
      [destruct (PolyStyle.int_float (text s)) eqn:F1|];
      (destruct (find element (_ColorStyle.ns b ++ "outline")) as [h|];
        [destruct (PolyStyle.int_float (text h)) eqn:F2|]);
      intros E; inversion E; subst;
      eapply int_float_raises_ParseKind; eassumption.
  - repeat split; vm_compute; reflexivity.
Qed.

Lemma PolyStyle_from_element_int_float_witness :
  let r := PolyStyle.from_element Sample.poly_element (PolyStyle.new "") in
  PolyStyle.fill (snd r) = Some (Int 1) /\
  PolyStyle.outline (snd r) = Some (Int 0) /\
  fst (PolyStyle.from_element Sample.poly_malformed (PolyStyle.new "")) =
    Raise (ConversionError float_ValueError).
Proof.
  destruct (PolyStyle_from_element_int_float Sample.poly_element (PolyStyle.new ""))
    as (F & O & _).
  destruct (PolyStyle_from_element_int_float Sample.poly_malformed (PolyStyle.new ""))
    as (F' & _).
  split; [|split].
  - apply (proj1 (F (Sample.leaf "fill" "1.0") eq_refl) IconStyle.one 1); reflexivity.
  - apply (proj1 (O (Sample.leaf "outline" "0") eq_refl) Sample.zero 0); reflexivity.
  - apply (proj2 (F' (Sample.leaf "fill" "yes") eq_refl)). reflexivity.
Defined.

(** ** BalloonStyle *)

Lemma BalloonStyle_from_element_ns (element : Element) (self : BalloonStyle.t) :
  BalloonStyle.ns (snd (BalloonStyle.from_element element self)) = BalloonStyle.ns self.
Proof.
  unfold BalloonStyle.from_element, _BaseObject.from_element, BalloonStyle.ns.
  destruct self as [[ns id] bg tc tx dm]. method.
  destruct (get element "id"); simpl;
    (destruct (find element (ns ++ "bgColor"));
      [| destruct (find element (ns ++ "color"))]);
    destruct (find element (ns ++ "textColor"));
    destruct (find element (ns ++ "text"));
    destruct (find element (ns ++ "displayMode")); reflexivity.
Qed.

(** C8. [BalloonStyle] decoding always returns; it takes [bgColor] from the
    [bgColor] child when there is one, whatever a [color] child says; from the
    legacy [color] child only when there is no [bgColor] child; and keeps the
    prior value when there is neither.  Encoding never writes a [color]
    child. *)
Theorem BalloonStyle_color_fallback (element : Element) (self : BalloonStyle.t) :
  let ns := BalloonStyle.ns self in
  let self' := snd (BalloonStyle.from_element element self) in
  fst (BalloonStyle.from_element element self) = Ok tt /\
  (forall b, find element (ns ++ "bgColor") = Some b ->
     BalloonStyle.bgColor self' = text b) /\
  (find element (ns ++ "bgColor") = None ->
   forall c, find element (ns ++ "color") = Some c ->
     BalloonStyle.bgColor self' = text c) /\
  (find element (ns ++ "bgColor") = None -> find element (ns ++ "color") = None ->
     BalloonStyle.bgColor self' = BalloonStyle.bgColor self) /\
  has_child (BalloonStyle.etree_element self) (ns ++ "color") = false.
Proof.
  intros ns self'. subst self'. subst ns.
  unfold BalloonStyle.from_element, _BaseObject.from_element, BalloonStyle.ns.
  destruct self as [[ns id] bg tc tx dm]. method.
  destruct (get element "id"); simpl;
  (destruct (find element (ns ++ "bgColor")) as [b|];
    [| destruct (find element (ns ++ "color")) as [c|]]);
    destruct (find element (ns ++ "textColor"));
    destruct (find element (ns ++ "text"));
    destruct (find element (ns ++ "displayMode")); simpl;
    (split; [reflexivity|]);
    (split; [intros ? H; inversion H; subst; reflexivity|]);
    (split; [intros H0 ? H; try discriminate; inversion H; subst; reflexivity|]);
    (split; [intros H1 H2; try discriminate; reflexivity|]).
  all: unfold BalloonStyle.etree_element, BalloonStyle.ns; simpl;
    destruct bg, tc, tx, dm;
    unfold SubElement; rewrite ?has_child_append, has_child_base; simpl;
    rewrite ?eqb_prefix; reflexivity.
Qed.

Lemma BalloonStyle_color_fallback_witness :
  let self' := snd (BalloonStyle.from_element Sample.legacy_balloon (BalloonStyle.new "")) in
  BalloonStyle.bgColor self' = Some "ff112233" /\
  has_child (BalloonStyle.etree_element self') "color" = false.
Proof.
  split.
  - destruct (BalloonStyle_color_fallback Sample.legacy_balloon (BalloonStyle.new ""))
      as (_ & _ & H & _).
    apply (H eq_refl (Sample.leaf "color" "ff112233")). reflexivity.
  - apply (BalloonStyle_color_fallback (Sample.node "x" [])
             (snd (BalloonStyle.from_element Sample.legacy_balloon (BalloonStyle.new "")))).
Defined.

(** ** StyleMap: encoding *)

Lemma append_pair_encodes (ns key : string) (slot : object) (content : option Element)
    (element : Element) :
  slot_encodes slot content ->
  StyleMap.append_pair ns key slot element =
  Ok {| tag := tag element; attrib := attrib element; text := text element;
        children := (children element ++ Pair_of ns key content)%list |}.
Proof.
  intros H. unfold StyleMap.append_pair.
  destruct H as [o content H | o content H | slot H]; simpl.
  - change (Style_ object) with Style.t. rewrite H. reflexivity.
  - rewrite H. reflexivity.
  - destruct slot as [| | [|] | | | | | | | |]; simpl in *;
      rewrite ?andb_false_r, ?app_nil_r; try (destruct element; reflexivity);
      exfalso; apply H; tauto.
Qed.

(** C7. When each slot either holds a [Style] or [StyleUrl] that encodes, or
    holds anything else, encoding a [StyleMap] returns an element whose
    children are the [Pair] of [normal], then the [Pair] of [highlight]: a
    [Pair] has a [key] child with the literal slot name followed by the slot's
    element, and a slot that holds neither a [Style] nor a [StyleUrl]
    contributes no [Pair] and no exception. *)
Theorem StyleMap_etree_element_pairs (self : StyleMap.t) (cn ch : option Element) :
  slot_encodes (StyleMap.normal self) cn ->
  slot_encodes (StyleMap.highlight self) ch ->
  exists element,
    StyleMap.etree_element self = Ok element /\
    tag element = StyleMap.ns self ++ "StyleMap" /\
    children element =
      (Pair_of (StyleMap.ns self) "normal" cn ++
       Pair_of (StyleMap.ns self) "highlight" ch)%list.
Proof.
  intros Hn Hh. unfold StyleMap.etree_element.
  rewrite (append_pair_encodes _ _ _ _ _ Hn). simpl.
  rewrite (append_pair_encodes _ _ _ _ _ Hh). simpl.
  eexists; split; [reflexivity|]. simpl.
  rewrite tag_base, children_base. split; reflexivity.
Qed.

Lemma StyleMap_etree_element_pairs_witness :
  exists element,
    StyleMap.etree_element
      (StyleMap.init "" None (a_StyleUrl Sample.style_url) (a_str "#s2")) = Ok element /\
    children element =
      [Sample.node "Pair"
         [Sample.leaf "key" "normal";
          {| tag := "styleUrl"; attrib := [("id", "u1")]; text := Some "#s1";
             children := [] |}]].
Proof.
  destruct (StyleMap_etree_element_pairs
              (StyleMap.init "" None (a_StyleUrl Sample.style_url) (a_str "#s2"))
              (Some {| tag := "styleUrl"; attrib := [("id", "u1")]; text := Some "#s1";
                       children := [] |})
              None) as (element & H1 & _ & H2).
  - apply encodes_StyleUrl. reflexivity.
  - apply encodes_nothing. simpl. intros [H|[H|[]]]; discriminate H.
  - exists element. split; [exact H1 | exact H2].
Defined.

(** ** StyleMap: decoding *)

Lemma text_eq_false (t : option string) (literal : string) :
  t <> Some literal -> StyleMap.text_eq t literal = false.
Proof.
  destruct t as [s|]; simpl; [|reflexivity].
  intros H. destruct (String.eqb_spec s literal); congruence.
Qed.

Lemma from_pair_refused (self : StyleMap.t) (pair : Element) :
  refused_pair (StyleMap.ns self) pair ->
  StyleMap.from_pair pair self = (Raise ValueError, self).
Proof.
  intros (key & Hk & H). unfold StyleMap.from_pair. method.
  rewrite Hk. simpl.
  destruct H as [[H1 H2] | [H1 H2]].
  - rewrite (text_eq_false _ _ H1), (text_eq_false _ _ H2). reflexivity.
  - rewrite H1, H2. unfold StyleMap.pair_value.
    destruct (StyleMap.text_eq (text key) "highlight");
      [|destruct (StyleMap.text_eq (text key) "normal")]; reflexivity.
Qed.

Section ForEach.

Context {S A : Type}.
Variable body : A -> M S unit.

Lemma for_each_app (l1 l2 : list A) (self : S) :
  for_each (l1 ++ l2) body self =
  match for_each l1 body self with
  | (Ok _, self') => for_each l2 body self'
  | (Raise e, self') => (Raise e, self')
  end.
Proof.
  revert self. induction l1 as [|x l1 IH]; intros self; simpl.
  - reflexivity.
  - unfold bind. destruct (body x self) as [[[]|e] s1]; [apply IH | reflexivity].
Qed.

(** What every run of the body preserves, the loop preserves. *)
Lemma for_each_invariant {B} (f : S -> B) :
  (forall x self, f (snd (body x self)) = f self) ->
  forall l self, f (snd (for_each l body self)) = f self.
Proof.
  intros H l. induction l as [|x l IH]; intros self; simpl; [reflexivity|].
  unfold bind. generalize (H x self).
  destruct (body x self) as [[[]|e] s1]; simpl; intros E.
  - rewrite IH. exact E.
  - exact E.
Qed.

End ForEach.

Lemma pair_value_self (ns : string) (style style_url : option Element) (self : StyleMap.t) :
  snd (StyleMap.pair_value ns style style_url self) = self.
Proof.
  unfold StyleMap.pair_value. method.
  destruct style as [s|]; [|destruct style_url as [u|]].
  - destruct (Style.from_element s (Style.new ns)) as [[[]|e] o]; reflexivity.
  - destruct (StyleUrl.from_element u (StyleUrl.new ns)) as [[[]|e] o]; reflexivity.
  - reflexivity.
Qed.

Lemma from_pair_ns (pair : Element) (self : StyleMap.t) :
  StyleMap.ns (snd (StyleMap.from_pair pair self)) = StyleMap.ns self.
Proof.
  unfold StyleMap.from_pair. method.
  destruct (StyleMap.text_of _) as [t|e]; simpl; [|reflexivity].
  destruct (StyleMap.text_eq t "highlight"); [|destruct (StyleMap.text_eq t "normal")];
    try reflexivity;
    match goal with
    | |- context [StyleMap.pair_value ?n ?s ?u ?x] =>
        generalize (pair_value_self n s u x);
        destruct (StyleMap.pair_value n s u x) as [[o|e] s']; simpl;
        intros ->; reflexivity
    end.
Qed.

(** A [Pair] with a key child whose text is neither "normal" nor "highlight"
    makes the decoding of that pair raise [ValueError], and so does a [Pair]
    with a key child and neither a [Style] nor a [styleUrl] child; the object
    is left as it was.  [StyleMap.from_element] raises that [ValueError], a
    ValueKind error, at the first such pair, when the pairs before it
    decode. *)
Lemma StyleMap_from_element_refuses (self : StyleMap.t) :
  let ns := StyleMap.ns self in
  (forall pair, refused_pair ns pair ->
     StyleMap.from_pair pair self = (Raise ValueError, self))
  /\
  (forall element before pair after,
     findall element (ns ++ "Pair") = (before ++ pair :: after)%list ->
     fst (for_each before StyleMap.from_pair
            (snd (super StyleMap.base StyleMap.set_base
                    (_BaseObject.from_element element) self))) = Ok tt ->
     refused_pair ns pair ->
     fst (StyleMap.from_element element self) = Raise ValueError)
  /\
  kind ValueError = Some ValueKind.
Proof.
  intros ns. split; [|split; [|reflexivity]].
  - intros pair H. apply from_pair_refused, H.
  - intros element before pair after Hp Hb Hr.
    unfold StyleMap.from_element, bind at 1.
    revert Hb. unfold super.
    rewrite BaseObject_from_element_eq.
    destruct (BaseObject_from_element_ok (StyleMap.base self) element) as [_ Hns].
    set (b' := snd (_BaseObject.from_element element (StyleMap.base self))) in *.
    simpl snd. intros Hb. method.
    assert (N : StyleMap.ns (StyleMap.set_base b' self) = ns) by exact Hns.
    rewrite N, Hp, for_each_app.
    set (s0 := StyleMap.set_base b' self) in *.
    generalize (for_each_invariant StyleMap.from_pair StyleMap.ns from_pair_ns before s0).
    destruct (for_each before StyleMap.from_pair s0) as [[[]|e] s1]; simpl in *;
      [|discriminate].
    intros N1. unfold bind.
    rewrite from_pair_refused; [reflexivity|].
    rewrite N1, N. exact Hr.
Qed.

Example StyleMap_from_element_refuses_samples :
  StyleMap.from_pair Sample.sideways_pair (StyleMap.new "") =
    (Raise ValueError, StyleMap.new "") /\
  fst (StyleMap.from_element (Sample.node "StyleMap" [Sample.empty_pair]) (StyleMap.new ""))
    = Raise ValueError.
Proof.
  destruct (StyleMap_from_element_refuses (StyleMap.new "")) as (H1 & H2 & _).
  split.
  - apply H1. exists (Sample.leaf "key" "sideways"). split; [reflexivity|].
    left. split; discriminate.
  - apply (H2 (Sample.node "StyleMap" [Sample.empty_pair]) [] Sample.empty_pair []).
    + reflexivity.
    + reflexivity.
    + exists (Sample.leaf "key" "normal"). split; [reflexivity|].
      right. split; reflexivity.
Defined.

(** Without a key child the decoding of a pair stops at [key.text], before
    either check. *)
Lemma from_pair_without_key (self : StyleMap.t) (pair : Element) :
  find pair (StyleMap.ns self ++ "key") = None ->
  StyleMap.from_pair pair self = (Raise AttributeError, self).
Proof.
  intros H. unfold StyleMap.from_pair. method. rewrite H. reflexivity.
Qed.

(** C4. [<StyleMap><Pair/></StyleMap>]: the pair has neither a [Style] nor a
    [styleUrl] child, and no key child; decoding it raises [AttributeError],
    which is no ValueKind error, and not the [ValueError] that a pair with a
    key child and neither of them gets. *)
Theorem StyleMap_from_element_pair_without_key :
  find Sample.bare_pair "Style" = None /\
  find Sample.bare_pair "styleUrl" = None /\
  StyleMap.from_element (Sample.node "StyleMap" [Sample.bare_pair]) (StyleMap.new "") =
    (Raise AttributeError, StyleMap.new "") /\
  kind AttributeError = None /\
  fst (StyleMap.from_element (Sample.node "StyleMap" [Sample.empty_pair]) (StyleMap.new ""))
    = Raise ValueError.
Proof. repeat split; reflexivity. Qed.

(** ** Style: decoding in canonical order *)

Lemma Style_from_element_probes (element : Element) :
  Style.from_element element =
  (super Style.base Style.set_base (_BaseObject.from_element element) ;;
   ns <- gets Style.ns ;;
   probe "IconStyle" IconStyle.new IconStyle.from_element an_IconStyle ns element ;;
   probe "LineStyle" LineStyle.new LineStyle.from_element a_LineStyle ns element ;;
   probe "PolyStyle" PolyStyle.new PolyStyle.from_element a_PolyStyle ns element ;;
   probe "LabelStyle" LabelStyle.new LabelStyle.from_element a_LabelStyle ns element ;;
   probe "BalloonStyle" BalloonStyle.new BalloonStyle.from_element a_BalloonStyle ns element).
Proof. reflexivity. Qed.

Section Probe.

Context {T : Type}.
Variables (name : string) (new : string -> T) (decode : Element -> M T unit).
Variables (wrap : T -> object) (ns : string) (element : Element).

Hypothesis decoded_member :
  forall style t', decode style (new ns) = (Ok tt, t') ->
    member_with_tag (wrap t') (ns ++ name).

(** A probe that returns has kept the base and appended the member it
    decoded, if the child was there. *)
Lemma probe_ok (self self' : Style.t) :
  probe name new decode wrap ns element self = (Ok tt, self') ->
  Style.base self' = Style.base self /\
  exists l,
    Style._styles self' = (Style._styles self ++ l)%list /\
    Forall2 member_with_tag l (filter (has_child element) [ns ++ name]).
Proof.
  unfold probe. simpl filter. rewrite has_child_find.
  destruct (find element (ns ++ name)) as [style|].
  - method. destruct (decode style (new ns)) as [[[]|e] t'] eqn:D; [|discriminate].
    pose proof (decoded_member _ _ D) as W.
    unfold Style.append_style. rewrite (proj1 W). method.
    intros H; inversion H; subst; clear H. split; [reflexivity|].
    exists [wrap t']. split; [reflexivity|]. constructor; [exact W | constructor].
  - method. intros H; inversion H; subst. split; [reflexivity|].
    exists []. split; [now rewrite app_nil_r | constructor].
Qed.

End Probe.

Lemma decoded_members (ns : string) :
  (forall style t', IconStyle.from_element style (IconStyle.new ns) = (Ok tt, t') ->
     member_with_tag (an_IconStyle t') (ns ++ "IconStyle")) /\
  (forall style t', LineStyle.from_element style (LineStyle.new ns) = (Ok tt, t') ->
     member_with_tag (a_LineStyle t') (ns ++ "LineStyle")) /\
  (forall style t', PolyStyle.from_element style (PolyStyle.new ns) = (Ok tt, t') ->
     member_with_tag (a_PolyStyle t') (ns ++ "PolyStyle")) /\
  (forall style t', LabelStyle.from_element style (LabelStyle.new ns) = (Ok tt, t') ->
     member_with_tag (a_LabelStyle t') (ns ++ "LabelStyle")) /\
  (forall style t', BalloonStyle.from_element style (BalloonStyle.new ns) = (Ok tt, t') ->
     member_with_tag (a_BalloonStyle t') (ns ++ "BalloonStyle")).
Proof.
  unfold member_with_tag.
  repeat split; try reflexivity; simpl; eexists; (split; [reflexivity|]).
  - rewrite tag_IconStyle. f_equal.
    pose proof (proj1 (proj1 (IconStyle_from_element_frame style (IconStyle.new ns)))) as N.
    rewrite H in N. exact N.
  - rewrite tag_LineStyle. f_equal.
    pose proof (proj1 (proj1 (LineStyle_from_element_frame style (LineStyle.new ns)))) as N.
    rewrite H in N. exact N.
  - rewrite tag_PolyStyle. f_equal.
    pose proof (proj1 (proj1 (PolyStyle_from_element_frame style (PolyStyle.new ns)))) as N.
    rewrite H in N. exact N.
  - rewrite tag_LabelStyle. f_equal.
    pose proof (proj1 (proj1 (LabelStyle_from_element_frame style (LabelStyle.new ns)))) as N.
    rewrite H in N. exact N.
  - rewrite tag_BalloonStyle. f_equal.
    pose proof (BalloonStyle_from_element_ns style (BalloonStyle.new ns)) as N.
    rewrite H in N. exact N.
Qed.

Lemma append_all_members (l : list object) (tags : list string) (element : Element) :
  Forall2 member_with_tag l tags ->
  exists el,
    Style.append_all element (Style.styles_from l) = Ok el /\
    tag el = tag element /\
    map tag (children el) = (map tag (children element) ++ tags)%list.
Proof.
  intros H. revert element.
  induction H as [|o t l tags [I (c & Hc & Ht)] _ IH]; intros element.
  - exists element. simpl. rewrite app_nil_r. auto.
  - simpl. rewrite I. simpl. rewrite Hc. simpl.
    destruct (IH (append element c)) as (el & E1 & E2 & E3).
    exists el. split; [exact E1|]. split; [exact E2|].
    rewrite E3. simpl. rewrite map_app, <- app_assoc. simpl. now rewrite Ht.
Qed.

(** C3. Whatever the order of the children of a [Style] element, when
    decoding it into a fresh [Style] returns, encoding the result returns too,
    and the children of the new element are tagged with those of the five tags
    IconStyle, LineStyle, PolyStyle, LabelStyle, BalloonStyle that the source
    has as a child, each once, in that order. *)
Theorem Style_decode_canonical_order (ns : string) (element : Element) (self' : Style.t) :
  Style.from_element element (Style.new ns) = (Ok tt, self') ->
  exists el,
    Style.etree_element self' = Ok el /\
    map tag (children el) = filter (has_child element) (canonical_tags ns).
Proof.
  rewrite Style_from_element_probes.
  unfold bind at 1, super. rewrite BaseObject_from_element_eq.
  destruct (BaseObject_from_element_ok (Style.base (Style.new ns)) element) as [_ Hns].
  set (b' := snd (_BaseObject.from_element element (Style.base (Style.new ns)))) in *.
  simpl in Hns.
  assert (N : Style.ns (Style.set_base b' (Style.new ns)) = ns) by exact Hns.
  unfold bind at 1, gets. cbv beta iota. rewrite N.
  set (s0 := Style.set_base b' (Style.new ns)).
  destruct (decoded_members ns) as (W1 & W2 & W3 & W4 & W5).
  unfold bind.
  destruct (probe "IconStyle" _ _ _ ns element s0) as [[[]|e] s1] eqn:E1; [|discriminate].
  cbv beta iota.
  destruct (probe "LineStyle" _ _ _ ns element s1) as [[[]|e] s2] eqn:E2; [|discriminate].
  cbv beta iota.
  destruct (probe "PolyStyle" _ _ _ ns element s2) as [[[]|e] s3] eqn:E3; [|discriminate].
  cbv beta iota.
  destruct (probe "LabelStyle" _ _ _ ns element s3) as [[[]|e] s4] eqn:E4; [|discriminate].
  cbv beta iota.
  intros E5.
  apply probe_ok in E1; [|exact W1]. destruct E1 as (B1 & l1 & S1 & F1).
  apply probe_ok in E2; [|exact W2]. destruct E2 as (B2 & l2 & S2 & F2).
  apply probe_ok in E3; [|exact W3]. destruct E3 as (B3 & l3 & S3 & F3).
  apply probe_ok in E4; [|exact W4]. destruct E4 as (B4 & l4 & S4 & F4).
  apply probe_ok in E5; [|exact W5]. destruct E5 as (B5 & l5 & S5 & F5).
  assert (F : Forall2 member_with_tag (Style._styles self')
                (filter (has_child element) (canonical_tags ns))).
  { rewrite S5, S4, S3, S2, S1. simpl Style._styles. simpl app at 5.
    change (canonical_tags ns) with
      (List.app [ns ++ "IconStyle"] (List.app [ns ++ "LineStyle"]
        (List.app [ns ++ "PolyStyle"] (List.app [ns ++ "LabelStyle"]
          [ns ++ "BalloonStyle"])))).
    rewrite !filter_app, <- !app_assoc.
    repeat apply Forall2_app; assumption. }
  destruct (append_all_members _ _
              (_BaseObject.etree_element Style.__name__ (Style.base self')) F)
    as (el & A1 & _ & A3).
  exists el. split; [exact A1|].
  rewrite A3, children_base. reflexivity.
Qed.

Lemma Style_decode_canonical_order_witness :
  map tag (children Sample.shuffled_style) =
    ["LabelStyle"; "IconStyle"; "PolyStyle"; "LineStyle"; "BalloonStyle"] /\
  exists el,
    Style.etree_element (snd (Style.from_element Sample.shuffled_style (Style.new "")))
      = Ok el /\
    map tag (children el) =
      ["IconStyle"; "LineStyle"; "PolyStyle"; "LabelStyle"; "BalloonStyle"].
Proof.
  split; [reflexivity|].
  apply (Style_decode_canonical_order "" Sample.shuffled_style
           (snd (Style.from_element Sample.shuffled_style (Style.new "")))).
  reflexivity.
Defined.

(** ** Round trips *)

Ltac written :=
  repeat match goal with
  | H : written_str _ |- _ =>
      let s := fresh "s" in let E := fresh "E" in let N := fresh "N" in
      destruct H as (s & E & N); simpl in E; subst;
      apply bool_str_true in N
  | H : written_float _ |- _ =>
      let x := fresh "x" in let E := fresh "E" in let R := fresh "R" in
      destruct H as (x & E & R); simpl in E; subst
  | H : written_int _ |- _ =>
      let x := fresh "n" in let E := fresh "E" in let R := fresh "R" in
      destruct H as (x & E & R); simpl in E; subst
  end.

Ltac rew_written :=
  repeat match goal with
  | H : bool_str _ = true |- _ => rewrite H
  | H : bool_number _ = true |- _ => rewrite H
  | H : float_ _ = Ok _ |- _ => rewrite H
  | H : PolyStyle.int_float _ = Ok _ |- _ => rewrite H
  end.

(** Running a decoder on an element given by its children: compare the tags
    under the common prefix, use what is known of the conversions, repeat. *)
Ltac decode_steps :=
  repeat progress
    (cbn -[str float_ PolyStyle.int_float String.append String.eqb];
     rewrite ?eqb_prefix;
     cbn -[str float_ PolyStyle.int_float String.append];
     rew_written).

Lemma ColorStyle_element (name : string) (b : _BaseObject.t) (c cm : string) :
  bool_str c = true -> bool_str cm = true ->
  _ColorStyle.etree_element name
    {| _ColorStyle.base := b; _ColorStyle.color := Some c; _ColorStyle.colorMode := Some cm |} =
  {| tag := _BaseObject.ns b ++ name;
     attrib := match _BaseObject.id b with Some i => [("id", i)] | None => [] end;
     text := None;
     children :=
       [{| tag := _BaseObject.ns b ++ "color"; attrib := []; text := Some c; children := [] |};
        {| tag := _BaseObject.ns b ++ "colorMode"; attrib := []; text := Some cm;
           children := [] |}] |}.
Proof.
  intros H1 H2. unfold _ColorStyle.etree_element, _ColorStyle.truthy. simpl.
  rewrite H1, H2. unfold _BaseObject.etree_element, SubElement, _ColorStyle.ns.
  destruct b as [ns [i|]]; reflexivity.
Qed.

Lemma StyleUrl_round_trip (v : StyleUrl.t) :
  written_str (StyleUrl.url v) ->
  exists element,
    StyleUrl.etree_element v = Ok element /\
    StyleUrl.from_element element (StyleUrl.new (StyleUrl.ns v)) = (Ok tt, v).
Proof.
  destruct v as [[ns id] url]. intros H. written.
  unfold StyleUrl.etree_element. simpl. rewrite N.
  eexists; split; [reflexivity|].
  unfold StyleUrl.from_element, _BaseObject.from_element, _BaseObject.etree_element.
  method. destruct id; reflexivity.
Qed.

Lemma BalloonStyle_round_trip (v : BalloonStyle.t) :
  BalloonStyle.from_element (BalloonStyle.etree_element v)
    (BalloonStyle.new (BalloonStyle.ns v)) = (Ok tt, v).
Proof.
  destruct v as [[ns id] bg tc tx dm].
  unfold BalloonStyle.etree_element, BalloonStyle.from_element,
    _BaseObject.from_element, _BaseObject.etree_element, BalloonStyle.ns, SubElement.
  method.
  destruct id, bg, tc, tx, dm; simpl; unfold find; simpl; rewrite ?eqb_prefix; simpl;
    reflexivity.
Qed.

Lemma IconStyle_round_trip (v : IconStyle.t) :
  written_str (_ColorStyle.color (IconStyle.base v)) ->
  written_str (_ColorStyle.colorMode (IconStyle.base v)) ->
  written_float (IconStyle.scale v) ->
  written_float (IconStyle.heading v) -> nonzero (IconStyle.heading v) ->
  written_str (IconStyle.icon_href v) ->
  IconStyle.from_element (IconStyle.etree_element v) (IconStyle.new (IconStyle.ns v))
  = (Ok tt, v).
Proof.
  destruct v as [[[ns id] c cm] sc hd ih]. simpl. intros Hc Hcm Hs Hh Hz Hi. written.
  destruct Hz as (h & E & Hz). inversion E; subst h; clear E.
  unfold IconStyle.etree_element. simpl IconStyle.base.
  rewrite ColorStyle_element by assumption.
  cbn [IconStyle.scale IconStyle.heading IconStyle.icon_href].
  unfold _ColorStyle.truthy. rew_written.
  unfold IconStyle.from_element, _ColorStyle.from_element, _BaseObject.from_element.
  unfold_methods. unfold IconStyle.ns, _ColorStyle.ns, SubElement, append, find.
  destruct id; decode_steps; reflexivity.
Qed.

Lemma LineStyle_round_trip (v : LineStyle.t) :
  written_str (_ColorStyle.color (LineStyle.base v)) ->
  written_str (_ColorStyle.colorMode (LineStyle.base v)) ->
  written_float (LineStyle.width v) ->
  LineStyle.from_element (LineStyle.etree_element v) (LineStyle.new (LineStyle.ns v))
  = (Ok tt, v).
Proof.
  destruct v as [[[ns id] c cm] w]. simpl. intros Hc Hcm Hs. written.
  unfold LineStyle.etree_element. simpl LineStyle.base.
  rewrite ColorStyle_element by assumption.
  unfold LineStyle.from_element, _ColorStyle.from_element, _BaseObject.from_element.
  unfold_methods. unfold LineStyle.ns, _ColorStyle.ns, SubElement, append, find.
  destruct id; decode_steps; reflexivity.
Qed.

Lemma LabelStyle_round_trip (v : LabelStyle.t) :
  written_str (_ColorStyle.color (LabelStyle.base v)) ->
  written_str (_ColorStyle.colorMode (LabelStyle.base v)) ->
  written_float (LabelStyle.scale v) ->
  LabelStyle.from_element (LabelStyle.etree_element v) (LabelStyle.new (LabelStyle.ns v))
  = (Ok tt, v).
Proof.
  destruct v as [[[ns id] c cm] w]. simpl. intros Hc Hcm Hs. written.
  unfold LabelStyle.etree_element. simpl LabelStyle.base.
  rewrite ColorStyle_element by assumption.
  unfold LabelStyle.from_element, _ColorStyle.from_element, _BaseObject.from_element.
  unfold_methods. unfold LabelStyle.ns, _ColorStyle.ns, SubElement, append, find.
  destruct id; decode_steps; reflexivity.
Qed.

Lemma PolyStyle_round_trip (v : PolyStyle.t) :
  written_str (_ColorStyle.color (PolyStyle.base v)) ->
  written_str (_ColorStyle.colorMode (PolyStyle.base v)) ->
  written_int (PolyStyle.fill v) -> written_int (PolyStyle.outline v) ->
  PolyStyle.from_element (PolyStyle.etree_element v) (PolyStyle.new (PolyStyle.ns v))
  = (Ok tt, v).
Proof.
  destruct v as [[[ns id] c cm] f o]. simpl. intros Hc Hcm Hf Ho. written.
  unfold PolyStyle.etree_element. simpl PolyStyle.base.
  rewrite ColorStyle_element by assumption.
  unfold PolyStyle.from_element, _ColorStyle.from_element, _BaseObject.from_element.
  unfold_methods. unfold PolyStyle.ns, _ColorStyle.ns, SubElement, append, find.
  destruct id; decode_steps; reflexivity.
Qed.

(** The boolean values of [fill] and [outline] survive the conversions. *)
Lemma written_int_boolean (n : Z) : n = 0 \/ n = 1 -> written_int (Some (Int n)).
Proof. intros [-> | ->]; eexists; (split; [reflexivity | vm_compute; reflexivity]). Qed.

(** An int beyond 2^53 does not survive them: [float] rounds it. *)
Remark int_float_rounds_large_int :
  PolyStyle.int_float (Some (str (Int 9007199254740993))) = Ok 9007199254740992.
Proof. vm_compute. reflexivity. Qed.

(** Floats whose shortest decimal form reads back as the same float. *)
Remark written_float_samples :
  written_float (Some (Float IconStyle.one)) /\
  written_float (Some (Float Sample.ninety)) /\
  written_float (Some (Float Sample.two_and_a_half)) /\
  str (Float IconStyle.one) = "1.0" /\
  str (Float Sample.ninety) = "90.0" /\
  str (Float Sample.two_and_a_half) = "2.5".
Proof.
  repeat split; try (eexists; split; [reflexivity | vm_compute; reflexivity]);
    vm_compute; reflexivity.
Qed.

(** A string field set to the empty string is not written out either: an
    empty [color] comes back as [None], and a [StyleUrl] with an empty url is
    not encoded at all. *)
Remark round_trip_loses_empty_strings :
  _ColorStyle.color
    (LineStyle.base
       (snd (LineStyle.from_element
               (LineStyle.etree_element
                  (LineStyle.init "" None (Some "") (Some "normal")
                     (Some (Float Sample.two_and_a_half))))
               (LineStyle.new "")))) = None /\
  StyleUrl.etree_element (StyleUrl.init "" None (Some "")) = Raise ValueError.
Proof. split; reflexivity. Qed.

(** C1, as stated, fails.  An [IconStyle] with every field set and the
    heading 0.0 is encoded and decoded without exception, but the value decoded
    differs from the original, its heading being [None]; and a [StyleUrl] with
    its id and url set, the url to the empty string, is not encoded at all. *)
Lemma style_round_trip_fails_when_fully_populated :
  (IconStyle_fully_populated Sample.icon_north = true /\
   exists v',
     IconStyle.from_element (IconStyle.etree_element Sample.icon_north)
       (IconStyle.new (IconStyle.ns Sample.icon_north)) = (Ok tt, v') /\
     IconStyle.heading v' = None /\
     v' <> Sample.icon_north)
  /\
  (is_set (StyleUrl.url (StyleUrl.init "" (Some "u1") (Some ""))) = true /\
   StyleUrl.etree_element (StyleUrl.init "" (Some "u1") (Some "")) = Raise ValueError).
Proof.
  split.
  - split; [reflexivity|].
    eexists. split; [vm_compute; reflexivity|].
    split; [reflexivity | discriminate].
  - split; reflexivity.
Qed.

(** C1, amended.  For an instance of a concrete style kind whose string
    fields that the encoder tests for truth ([color], [colorMode],
    [icon_href], [url]) are set and not empty, whose heading is not zero, and
    whose numeric fields hold floats ([scale], [heading], [width]) or ints
    ([fill], [outline]) that the text conversions reproduce, decoding the
    encoded element into a fresh instance returns exactly the instance; a
    [BalloonStyle] round-trips whatever its fields hold. *)
Theorem style_round_trip :
  (forall v : IconStyle.t,
     written_str (_ColorStyle.color (IconStyle.base v)) ->
     written_str (_ColorStyle.colorMode (IconStyle.base v)) ->
     written_float (IconStyle.scale v) ->
     written_float (IconStyle.heading v) -> nonzero (IconStyle.heading v) ->
     written_str (IconStyle.icon_href v) ->
     IconStyle.from_element (IconStyle.etree_element v) (IconStyle.new (IconStyle.ns v))
     = (Ok tt, v))
  /\
  (forall v : LineStyle.t,
     written_str (_ColorStyle.color (LineStyle.base v)) ->
     written_str (_ColorStyle.colorMode (LineStyle.base v)) ->
     written_float (LineStyle.width v) ->
     LineStyle.from_element (LineStyle.etree_element v) (LineStyle.new (LineStyle.ns v))
     = (Ok tt, v))
  /\
  (forall v : PolyStyle.t,
     written_str (_ColorStyle.color (PolyStyle.base v)) ->
     written_str (_ColorStyle.colorMode (PolyStyle.base v)) ->
     written_int (PolyStyle.fill v) -> written_int (PolyStyle.outline v) ->
     PolyStyle.from_element (PolyStyle.etree_element v) (PolyStyle.new (PolyStyle.ns v))
     = (Ok tt, v))
  /\
  (forall v : LabelStyle.t,
     written_str (_ColorStyle.color (LabelStyle.base v)) ->
     written_str (_ColorStyle.colorMode (LabelStyle.base v)) ->
     written_float (LabelStyle.scale v) ->
     LabelStyle.from_element (LabelStyle.etree_element v) (LabelStyle.new (LabelStyle.ns v))
     = (Ok tt, v))
  /\
  (forall v : BalloonStyle.t,
     BalloonStyle.from_element (BalloonStyle.etree_element v)
       (BalloonStyle.new (BalloonStyle.ns v)) = (Ok tt, v))
  /\
  (forall v : StyleUrl.t,
     written_str (StyleUrl.url v) ->
     exists element,
       StyleUrl.etree_element v = Ok element /\
       StyleUrl.from_element element (StyleUrl.new (StyleUrl.ns v)) = (Ok tt, v)).
Proof.
  split; [exact IconStyle_round_trip|].
  split; [exact LineStyle_round_trip|].
  split; [exact PolyStyle_round_trip|].
  split; [exact LabelStyle_round_trip|].
  split; [exact BalloonStyle_round_trip|].
  exact StyleUrl_round_trip.
Qed.

Lemma style_round_trip_witness :
  IconStyle.from_element (IconStyle.etree_element Sample.icon) (IconStyle.new "")
    = (Ok tt, Sample.icon) /\
  LineStyle.from_element (LineStyle.etree_element Sample.line) (LineStyle.new "")
    = (Ok tt, Sample.line) /\
  PolyStyle.from_element (PolyStyle.etree_element Sample.poly) (PolyStyle.new "")
    = (Ok tt, Sample.poly) /\
  LabelStyle.from_element (LabelStyle.etree_element Sample.label) (LabelStyle.new "")
    = (Ok tt, Sample.label) /\
  exists element,
    StyleUrl.etree_element Sample.style_url = Ok element /\
    StyleUrl.from_element element (StyleUrl.new "") = (Ok tt, Sample.style_url).
Proof.
  destruct style_round_trip as (HI & HL & HP & HB & _ & HU).
  split; [|split; [|split; [|split]]].
  - apply (HI Sample.icon).
    + exists "ff0000ff". split; [reflexivity | discriminate].
    + exists "normal". split; [reflexivity | discriminate].
    + exists Sample.two_and_a_half. split; reflexivity.
    + exists Sample.ninety. split; reflexivity.
    + exists (Float Sample.ninety). split; reflexivity.
    + exists "http://example.com/i.png". split; [reflexivity | discriminate].
  - apply (HL Sample.line).
    + exists "ff0000ff". split; [reflexivity | discriminate].
    + exists "random". split; [reflexivity | discriminate].
    + exists Sample.two_and_a_half. split; reflexivity.
  - apply (HP Sample.poly).
    + exists "ff0000ff". split; [reflexivity | discriminate].
    + exists "random". split; [reflexivity | discriminate].
    + exists 1. split; reflexivity.
    + exists 0. split; reflexivity.
  - apply (HB Sample.label).
    + exists "ff0000ff". split; [reflexivity | discriminate].
    + exists "normal". split; [reflexivity | discriminate].
    + exists Sample.two_and_a_half. split; reflexivity.
  - apply (HU Sample.style_url).
    exists "#s1". split; [reflexivity | discriminate].
Defined.
